(** * The disk-availability health check of openshift-ansible

    A shallow embedding of
    [roles/openshift_health_checker/openshift_checks/disk_availability.py]
    (class [DiskAvailability]) together with the fragment of the Python
    runtime the check relies on: exceptions, numbers (unbounded integers and
    binary64 floats), insertion-ordered dictionaries, a few string
    operations, [max], [sorted] and [os.path.dirname].

    Conventions.
    - A Python expression that may raise is a value of [result]; the
      exception classes the check can meet are the constructors of [exn].
    - A Python [int] is a [Z]; a Python [float] is a primitive binary64
      [float], so that arithmetic, comparisons and the [{:.1f}] rendering
      agree with CPython bit for bit.
    - A [dict] is an association list without repeated keys, in insertion
      order (the iteration order of CPython 3.7 and later).
    - A [str] is a [string]; ordering is by character code. *)

From Stdlib Require Import ZArith List String Ascii Bool Lia.
From Stdlib Require Import Sorting.Sorted Sorting.Permutation Sorting.Mergesort.
From Stdlib Require Import Orders DecimalString.
From Stdlib Require Import Floats.PrimFloat Floats.SpecFloat Floats.FloatOps.
Import ListNotations.

Local Open Scope string_scope.
Local Open Scope Z_scope.

(** ** Exceptions and results *)

Inductive exn : Type :=
| TypeError
| ValueError
| KeyError
| AttributeError
| OverflowError
| ZeroDivisionError
| OpenShiftCheckException (msg : string).

Inductive result (A : Type) : Type :=
| Return (a : A)
| Raise (e : exn).

Arguments Return {A} a.
Arguments Raise {A} e.

Definition bind {A B : Type} (m : result A) (k : A -> result B) : result B :=
  match m with
  | Return a => k a
  | Raise e => Raise e
  end.

Notation "x <- m ;; k" := (bind m (fun x => k))
  (at level 61, m at next level, right associativity).

(** [try: body except E: handler], for the exception classes selected by
    [catches]; any other exception propagates. *)
Definition try_except {A : Type} (body : result A) (catches : exn -> bool)
    (handler : result A) : result A :=
  match body with
  | Return a => Return a
  | Raise e => if catches e then handler else Raise e
  end.

Definition is_TypeError (e : exn) : bool :=
  match e with TypeError => true | _ => false end.

Definition is_KeyError (e : exn) : bool :=
  match e with KeyError => true | _ => false end.

(** [get_var(name, default=d)] on a variable that may be undefined. *)
Definition get_var_default {A : Type} (v : option A) (d : A) : A :=
  match v with
  | Some a => a
  | None => d
  end.

(** ** Numbers *)

Inductive num : Type :=
| PInt (z : Z)
| PFloat (f : float).

(** [float(n)] on an [int]: the nearest binary64 value, ties to even;
    [OverflowError] when the integer is beyond the range of a float. *)
Definition float_of_Z (z : Z) : result float :=
  match binary_normalize prec emax z 0 false with
  | S754_infinity _ => Raise OverflowError
  | sf => Return (SF2Prim sf)
  end.

Definition num_float (n : num) : result float :=
  match n with
  | PInt z => float_of_Z z
  | PFloat f => Return f
  end.

(** Exact comparison of an integer with a float, as CPython does it for
    mixed operands; [None] when the float is a NaN. *)
Definition Z_float_compare (a : Z) (g : float) : option comparison :=
  match Prim2SF g with
  | S754_nan => None
  | S754_infinity true => Some Gt
  | S754_infinity false => Some Lt
  | S754_zero _ => Some (a ?= 0)
  | S754_finite s m e =>
      let v := if s then Z.neg m else Z.pos m in
      if 0 <=? e then Some (a ?= v * 2 ^ e)
      else Some (a * 2 ^ (- e) ?= v)
  end.

(** [x < y] *)
Definition num_lt (x y : num) : bool :=
  match x, y with
  | PInt a, PInt b => a <? b
  | PFloat f, PFloat g => PrimFloat.ltb f g
  | PInt a, PFloat g =>
      match Z_float_compare a g with Some Lt => true | _ => false end
  | PFloat f, PInt b =>
      match Z_float_compare b f with Some Gt => true | _ => false end
  end.

(** [x > y] *)
Definition num_gt (x y : num) : bool := num_lt y x.

(** Truth value of a number: everything but zero (of either sign). *)
Definition num_truthy (n : num) : bool :=
  match n with
  | PInt z => negb (z =? 0)
  | PFloat f => negb (PrimFloat.eqb f PrimFloat.zero)
  end.

(** [x or y] on numbers. *)
Definition num_or (x y : num) : num :=
  if num_truthy x then x else y.

(** [x * k] for an [int] literal [k]. *)
Definition num_mul_int (x : num) (k : Z) : result num :=
  match x with
  | PInt a => Return (PInt (a * k))
  | PFloat f => g <- float_of_Z k ;; Return (PFloat (PrimFloat.mul f g))
  end.

(** [f / k] for a float [f] and an [int] literal [k]. *)
Definition float_div_int (f : float) (k : Z) : result float :=
  if k =? 0 then Raise ZeroDivisionError
  else g <- float_of_Z k ;; Return (PrimFloat.div f g).

(** [max(iterable)]: the first of the largest items; [ValueError] on an
    empty iterable. *)
Fixpoint max_from {A : Type} (gt : A -> A -> bool) (cur : A) (l : list A) : A :=
  match l with
  | [] => cur
  | x :: l' => max_from gt (if gt x cur then x else cur) l'
  end.

Definition py_max {A : Type} (gt : A -> A -> bool) (l : list A) : result A :=
  match l with
  | [] => Raise ValueError
  | x :: l' => Return (max_from gt x l')
  end.

(** ** Strings *)

Definition dquote : string := String "034"%char EmptyString.
Definition newline : string := String "010"%char EmptyString.

(** Decimal digits of a natural number, and [str(z)] of an [int]. *)
Definition digits (z : Z) : string :=
  NilZero.string_of_uint (N.to_uint (Z.to_N z)).

Definition str_Z (z : Z) : string :=
  NilZero.string_of_int (Z.to_int z).

(** [n / d] rounded to the nearest integer, ties to even ([0 <= n], [0 < d]). *)
Definition round_half_even (n d : Z) : Z :=
  let q := n / d in
  let r := n mod d in
  match 2 * r ?= d with
  | Lt => q
  | Gt => q + 1
  | Eq => if Z.even q then q else q + 1
  end.

(** ['{:.1f}'.format(f)]: the exact value of [f] rounded to one decimal,
    ties to even, with every integer digit written out. *)
Definition format_1f (f : float) : string :=
  match Prim2SF f with
  | S754_nan => "nan"
  | S754_infinity s => if s then "-inf" else "inf"
  | S754_zero s => (if s then "-" else EmptyString) ++ "0.0"
  | S754_finite s m e =>
      let tenths :=
        if 0 <=? e then Z.pos m * 2 ^ e * 10
        else round_half_even (Z.pos m * 10) (2 ^ (- e)) in
      (if s then "-" else EmptyString)
        ++ digits (tenths / 10) ++ "." ++ digits (tenths mod 10)
  end.

(** [s.rfind(c)]: the highest index of [c] in [s], or [-1]. *)
Fixpoint rfind (c : ascii) (s : string) : Z :=
  match s with
  | EmptyString => -1
  | String a s' =>
      let i := rfind c s' in
      if 0 <=? i then i + 1
      else if Ascii.eqb a c then 0 else -1
  end.

(** [s.rstrip(c)] for a single character [c]. *)
Fixpoint rstrip (c : ascii) (s : string) : string :=
  match s with
  | EmptyString => EmptyString
  | String a s' =>
      match rstrip c s' with
      | EmptyString => if Ascii.eqb a c then EmptyString else String a EmptyString
      | r => String a r
      end
  end.

(** [s == c * len(s)] *)
Fixpoint all_char (c : ascii) (s : string) : bool :=
  match s with
  | EmptyString => true
  | String a s' => Ascii.eqb a c && all_char c s'
  end.

Definition str_truthy (s : string) : bool :=
  match s with
  | EmptyString => false
  | _ => true
  end.

(** [os.path.dirname] of [posixpath]:
<<
    i = p.rfind('/') + 1
    head = p[:i]
    if head and head != '/' * len(head):
        head = head.rstrip('/')
    return head
>> *)
Definition dirname (p : string) : string :=
  let i := rfind "/"%char p + 1 in
  let head := substring 0 (Z.to_nat i) p in
  if str_truthy head && negb (all_char "/"%char head)
  then rstrip "/"%char head
  else head.

(** [sub in s] *)
Fixpoint prefix_of (p s : string) : bool :=
  match p, s with
  | EmptyString, _ => true
  | String a p', String b s' => Ascii.eqb a b && prefix_of p' s'
  | String _ _, EmptyString => false
  end.

Fixpoint contains (sub s : string) : bool :=
  prefix_of sub s ||
  match s with
  | EmptyString => false
  | String _ s' => contains sub s'
  end.

(** [sorted] on strings: a stable merge sort by character code. *)
Module StringOrder <: TotalLeBool.
Definition t := string.
Definition leb := String.leb.
Theorem leb_total : forall a1 a2, leb a1 a2 = true \/ leb a2 a1 = true.
Proof. exact String.leb_total. Qed.
End StringOrder.

Module StringSort := Sort StringOrder.

Definition sorted (l : list string) : list string := StringSort.sort l.

(** ** Dictionaries *)

Definition dict (V : Type) : Type := list (string * V).

Fixpoint dict_get {V : Type} (d : dict V) (k : string) : option V :=
  match d with
  | [] => None
  | (k', v) :: d' => if String.eqb k' k then Some v else dict_get d' k
  end.

(** [k in d] *)
Definition dict_mem {V : Type} (k : string) (d : dict V) : bool :=
  match dict_get d k with
  | Some _ => true
  | None => false
  end.

(** [d.get(k, default)] *)
Definition dict_get_default {V : Type} (d : dict V) (k : string) (default : V) : V :=
  match dict_get d k with
  | Some v => v
  | None => default
  end.

(** [d[k]] *)
Definition dict_getitem {V : Type} (d : dict V) (k : string) : result V :=
  match dict_get d k with
  | Some v => Return v
  | None => Raise KeyError
  end.

(** [d[k] = v]: a key already present keeps its position. *)
Fixpoint dict_set {V : Type} (d : dict V) (k : string) (v : V) : dict V :=
  match d with
  | [] => [(k, v)]
  | (k', v') :: d' =>
      if String.eqb k' k then (k', v) :: d' else (k', v') :: dict_set d' k v
  end.

(** A dict display [{k1: v1, ..., kn: vn}] or a dict comprehension: the
    items are stored left to right. *)
Definition dict_of_list {V : Type} (kvs : list (string * V)) : dict V :=
  fold_left (fun d kv => dict_set d (fst kv) (snd kv)) kvs [].

Definition dict_keys {V : Type} (d : dict V) : list string := map fst d.
Definition dict_values {V : Type} (d : dict V) : list V := map snd d.
Definition dict_items {V : Type} (d : dict V) : list (string * V) := d.

(** Truth value of a dict: non-empty. *)
Definition dict_truthy {V : Type} (d : dict V) : bool :=
  match d with
  | [] => false
  | _ => true
  end.

(** Sets of strings ([set()], [update], [intersection]), as duplicate-free
    lists. *)
Definition str_mem (x : string) (l : list string) : bool :=
  existsb (String.eqb x) l.

Definition set_update (s : list string) (xs : list string) : list string :=
  fold_left (fun acc x => if str_mem x acc then acc else (acc ++ [x])%list) xs s.

Definition set_intersection (s : list string) (xs : list string) : list string :=
  filter (fun x => str_mem x xs) s.

Definition set_truthy (s : list string) : bool :=
  match s with
  | [] => false
  | _ => true
  end.

(** ** Inputs of the check *)

(** An entry of the [ansible_mounts] fact: a record with at least the key
    ['mount']; ['size_available'] may be missing. *)
Record mount_record : Type := {
  mount : string;
  size_available : option num
}.

(** [entry['size_available']] *)
Definition get_size_available (entry : mount_record) : result num :=
  match size_available entry with
  | Some n => Return n
  | None => Raise KeyError
  end.

(** A value of the inventory variable [openshift_check_min_host_disk_gb]:
    a number, a nested dict path -> group -> gigabytes, or something else
    an inventory can hold ([None], a string). *)
Inductive config_value : Type :=
| CNone
| CNum (n : num)
| CStr (s : string)
| CDict (d : dict (dict num)).

(** The result record of [run]: the values stored under its keys. *)
Inductive field : Type :=
| FBool (b : bool)
| FStr (s : string).

(** ** The check *)

Section DiskAvailability.

(** The value of [tempfile.gettempdir()] when the class body runs. *)
Variable tmpdir : string.

(** [float(s)] on a string: [None] stands for [ValueError]. *)
Variable float_of_string : string -> option float.

(** [str(f)] of a float, as ['{}'.format(f)] renders it. *)
Variable float_repr : float -> string.

Definition recommended_disk_space_bytes : dict (dict Z) :=
  dict_of_list [
    ("/var", dict_of_list [
       ("masters", 40 * 10 ^ 9);
       ("nodes", 15 * 10 ^ 9);
       ("etcd", 20 * 10 ^ 9)]);
    ("/usr/local/bin", dict_of_list [
       ("masters", 1 * 10 ^ 9);
       ("nodes", 1 * 10 ^ 9);
       ("etcd", 1 * 10 ^ 9)]);
    (tmpdir, dict_of_list [
       ("masters", 1 * 10 ^ 9);
       ("nodes", 1 * 10 ^ 9);
       ("etcd", 1 * 10 ^ 9)])].

Definition recommended_disk_upgrade_bytes : dict (dict Z) :=
  dict_of_list [
    ("/var", dict_of_list [
       ("masters", 10 * 10 ^ 9);
       ("nodes", 5 * 10 ^ 9);
       ("etcd", 5 * 10 ^ 9)])].

(** *** [is_active]

    [super_is_active] is the value of the inherited
    [OpenShiftCheck.is_active()]. *)
Definition active_groups : list string :=
  fold_left (fun acc recommendation => set_update acc (dict_keys recommendation))
            (dict_values recommended_disk_space_bytes) [].

Definition has_disk_space_recommendation (group_names : option (list string)) : bool :=
  let group_names := get_var_default group_names [] in
  set_truthy (set_intersection active_groups group_names).

Definition is_active (super_is_active : bool) (group_names : option (list string)) : bool :=
  super_is_active && has_disk_space_recommendation group_names.

(** *** [free_bytes]

    The loop
<<
    while mount_point not in ansible_mounts and max_depth > 0:
        mount_point = os.path.dirname(mount_point)
        max_depth -= 1
>>
    is a recursion on [max_depth]. *)
Fixpoint find_mount_point (max_depth : nat) (mount_point : string)
    (ansible_mounts : dict mount_record) : string :=
  match max_depth with
  | O => mount_point
  | S max_depth' =>
      if dict_mem mount_point ansible_mounts then mount_point
      else find_mount_point max_depth' (dirname mount_point) ansible_mounts
  end.

Definition quoted (s : string) : string := dquote ++ s ++ dquote.

Definition known_mounts (ansible_mounts : dict mount_record) : string :=
  let joined := String.concat ", " (map quoted (sorted (dict_keys ansible_mounts))) in
  if str_truthy joined then joined else "none".

Definition unable_msg (path : string) (known : string) : string :=
  "Unable to determine disk availability for " ++ dquote ++ path ++ dquote
    ++ ". Known mount points: " ++ known ++ ".".

Definition free_bytes (path : string) (ansible_mounts : dict mount_record) : result num :=
  let mount_point := find_mount_point 32 path ansible_mounts in
  try_except
    (entry <- dict_getitem ansible_mounts mount_point ;;
     get_size_available entry)
    is_KeyError
    (Raise (OpenShiftCheckException
              (unable_msg path (known_mounts ansible_mounts)))).

(** *** [run]

    Lines 61-75: the legacy numeric form of the override. *)
Definition py_float (v : config_value) : result float :=
  match v with
  | CNum n => num_float n
  | CStr s =>
      match float_of_string s with
      | Some f => Return f
      | None => Raise ValueError
      end
  | CNone | CDict _ => Raise TypeError
  end.

Definition legacy_config (number : float) : dict (dict num) :=
  dict_of_list [
    ("/var", dict_of_list [
       ("masters", PFloat number);
       ("nodes", PFloat number);
       ("etcd", PFloat number)])].

Definition normalize_user_config (user_config : config_value) : result config_value :=
  try_except
    (number <- py_float user_config ;;
     Return (CDict (legacy_config number)))
    is_TypeError
    (Return user_config).

(** [user_config.get(path, {})] *)
Definition config_get (user_config : config_value) (path : string) : result (dict num) :=
  match user_config with
  | CDict d => Return (dict_get_default d path [])
  | _ => Raise AttributeError
  end.

(** Line 84. *)
Definition baseline_bytes (recommendation : dict Z) (group_names : list string) : result Z :=
  py_max Z.gtb (map (fun name => dict_get_default recommendation name 0) group_names).

(** Lines 86-89. *)
Definition config_bytes_for (user_config : config_value) (path : string)
    (group_names : list string) : result num :=
  config <- config_get user_config path ;;
  m <- py_max num_gt (map (fun name => dict_get_default config name (PInt 0)) group_names) ;;
  num_mul_int m (10 ^ 9).

(** Lines 96-101. *)
Definition upgrade_bytes (path : string) (group_names : list string)
    (context : string) (config_bytes recommended_bytes : num) : result num :=
  if String.eqb context "upgrade" then
    let recommended_upgrade_paths :=
      dict_get_default recommended_disk_upgrade_bytes path [] in
    if dict_truthy recommended_upgrade_paths then
      if num_truthy config_bytes then Return config_bytes
      else
        u <- py_max Z.gtb
               (map (fun name => dict_get_default recommended_upgrade_paths name 0)
                    group_names) ;;
        Return (PInt u)
    else Return recommended_bytes
  else Return recommended_bytes.

(** Lines 84-101: the pair [(config_bytes, recommended_bytes)] the
    comparison of line 103 is made with. *)
Definition required_bytes (group_names : list string) (user_config : config_value)
    (context : string) (path : string) (recommendation : dict Z) : result (num * num) :=
  recommended_bytes <- baseline_bytes recommendation group_names ;;
  config_bytes <- config_bytes_for user_config path group_names ;;
  let recommended_bytes := num_or config_bytes (PInt recommended_bytes) in
  recommended_bytes <-
    upgrade_bytes path group_names context config_bytes recommended_bytes ;;
  Return (config_bytes, recommended_bytes).

Definition base_msg (path : string) (free_gb recommended_gb : float) : string :=
  "Available disk space in " ++ dquote ++ path ++ dquote
    ++ " (" ++ format_1f free_gb ++ " GB) "
    ++ "is below minimum recommended (" ++ format_1f recommended_gb ++ " GB)".

Definition str_num (n : num) : string :=
  match n with
  | PInt z => str_Z z
  | PFloat f => float_repr f
  end.

Definition upgrade_warning (config_bytes : num) : string :=
  newline ++ newline
    ++ "Make sure to account for decreased disk space during an upgrade" ++ newline
    ++ "due to an existing OpenShift deployment. Please check the value of" ++ newline
    ++ "  openshift_check_min_host_disk_gb=" ++ str_num config_bytes ++ newline
    ++ "in your Ansible inventory, and lower the recommended disk space availability"
    ++ newline
    ++ "if necessary for this upgrade.".

(** Lines 104-126: the body of [if free_bytes < recommended_bytes].  The
    variable [msg] is built, extended under an upgrade, and not used by the
    [return] statement, which formats the message again. *)
Definition failure (path : string) (context : string)
    (free config_bytes recommended_bytes : num) : result (dict field) :=
  free_f <- num_float free ;;
  free_gb <- float_div_int free_f (10 ^ 9) ;;
  recommended_f <- num_float recommended_bytes ;;
  recommended_gb <- float_div_int recommended_f (10 ^ 9) ;;
  let msg := base_msg path free_gb recommended_gb in
  let msg :=
    if num_truthy config_bytes && String.eqb context "upgrade"
    then msg ++ upgrade_warning config_bytes
    else msg in
  Return (dict_of_list [
    ("failed", FBool true);
    ("msg", FStr (base_msg path free_gb recommended_gb))]).

(** One iteration of the loop of [run]: [Return None] when the loop goes on
    to the next path, [Return (Some r)] when the body returns [r]. *)
Definition check_path (group_names : list string) (ansible_mounts : dict mount_record)
    (user_config : config_value) (context : option string)
    (path : string) (recommendation : dict Z) : result (option (dict field)) :=
  free <- free_bytes path ansible_mounts ;;
  let context := get_var_default context EmptyString in
  req <- required_bytes group_names user_config context path recommendation ;;
  let (config_bytes, recommended_bytes) := req in
  if num_lt free recommended_bytes then
    r <- failure path context free config_bytes recommended_bytes ;;
    Return (Some r)
  else Return None.

Fixpoint check_paths (group_names : list string) (ansible_mounts : dict mount_record)
    (user_config : config_value) (context : option string)
    (items : list (string * dict Z)) : result (dict field) :=
  match items with
  | [] => Return []
  | (path, recommendation) :: items' =>
      r <- check_path group_names ansible_mounts user_config context path recommendation ;;
      match r with
      | Some failed => Return failed
      | None => check_paths group_names ansible_mounts user_config context items'
      end
  end.

(** Line 59: the mount list indexed by mount path. *)
Definition mounts_by_path (ansible_mounts : list mount_record) : dict mount_record :=
  dict_of_list (map (fun m => (mount m, m)) ansible_mounts).

Definition run (group_names : list string) (ansible_mounts : list mount_record)
    (openshift_check_min_host_disk_gb : option config_value)
    (r_openshift_health_checker_playbook_context : option string)
    : result (dict field) :=
  let ansible_mounts := mounts_by_path ansible_mounts in
  let user_config := get_var_default openshift_check_min_host_disk_gb (CDict []) in
  user_config <- normalize_user_config user_config ;;
  check_paths group_names ansible_mounts user_config
              r_openshift_health_checker_playbook_context
              (dict_items recommended_disk_space_bytes).

End DiskAvailability.

(** ** Vocabulary of the statements and sample data *)

Definition no_float_of_string (s : string) : option float := None.
Definition no_float_repr (f : float) : string := "?".

Definition mount_int (p : string) (n : Z) : mount_record :=
  {| mount := p; size_available := Some (PInt n) |}.

Definition mount_float (p : string) (f : float) : mount_record :=
  {| mount := p; size_available := Some (PFloat f) |}.

Definition var_recommendation : dict Z :=
  [("masters", 40000000000); ("nodes", 15000000000); ("etcd", 20000000000)].

Definition small_recommendation : dict Z :=
  [("masters", 1000000000); ("nodes", 1000000000); ("etcd", 1000000000)].

Definition var_upgrade_recommendation : dict Z :=
  [("masters", 10000000000); ("nodes", 5000000000); ("etcd", 5000000000)].

(** A role is mentioned by the install table when some path lists it. *)
Definition mentioned (tmpdir : string) (role : string) : Prop :=
  exists path recommendation,
    In (path, recommendation) (dict_items (recommended_disk_space_bytes tmpdir))
    /\ In role (dict_keys recommendation).

(** [m] is the largest of the values [f name] for [name] in [names]. *)
Definition is_max_over (f : string -> Z) (names : list string) (m : Z) : Prop :=
  (exists name, In name names /\ f name = m)
  /\ (forall name, In name names -> f name <= m).

(** The check of one table entry goes through: the path resolves, its
    requirement is computed, and the free space is not below it. *)
Definition path_passes (group_names : list string) (ansible_mounts : dict mount_record)
    (user_config : config_value) (context : option string)
    (item : string * dict Z) : Prop :=
  exists free config_bytes recommended_bytes : num,
    free_bytes (fst item) ansible_mounts = Return free
    /\ required_bytes group_names user_config (get_var_default context EmptyString)
         (fst item) (snd item) = Return (config_bytes, recommended_bytes)
    /\ num_lt free recommended_bytes = false.

(** The record [run] returns for a deficient path. *)
Definition failed_result (path : string) (free_f recommended_f : float) : dict field :=
  [("failed", FBool true);
   ("msg", FStr (base_msg path (PrimFloat.div free_f 1000000000)
                          (PrimFloat.div recommended_f 1000000000)))].

Definition low_root_mounts : list mount_record :=
  [mount_int "/" 500000000; mount_int "/var" 50000000000].

Definition sample_mounts : list mount_record :=
  [mount_int "/" 50000000000; mount_int "/var" 8000000000].

Definition sample_mounts_float : list mount_record :=
  [mount_float "/" 50000000000; mount_float "/var" 8000000000].

Definition sample_failure_msg : string :=
  "Available disk space in " ++ dquote ++ "/var" ++ dquote
    ++ " (8.0 GB) is below minimum recommended (15.0 GB)".

Definition sample_override : config_value :=
  CDict [("/var", [("nodes", PInt 50)])].

Definition sample_override_msg : string :=
  "Available disk space in " ++ dquote ++ "/var" ++ dquote
    ++ " (8.0 GB) is below minimum recommended (50.0 GB)".

(** The number of occurrences of a character in a string. *)
Fixpoint count_char (c : ascii) (s : string) : nat :=
  match s with
  | EmptyString => O
  | String a s' => ((if Ascii.eqb a c then 1 else 0) + count_char c s')%nat
  end.


(** The last record of a mount list whose ['mount'] is [key]. *)
Definition last_mount (key : string) (ansible_mounts : list mount_record)
    : option mount_record :=
  find (fun m => String.eqb (mount m) key) (rev ansible_mounts).


(** The [head] of [os.path.dirname]: the path up to its last slash. *)
Definition dir_head (p : string) : string :=
  substring 0 (Z.to_nat (rfind "/"%char p + 1)) p.

(** A path that begins with two slashes. *)
Definition double_slash (p : string) : Prop :=
  exists r : string, p = String "/"%char (String "/"%char r).

(** * Properties *)

(** ** The requirement tables *)

Lemma install_table_items (tmpdir : string) :
  dict_items (recommended_disk_space_bytes tmpdir) =
    if String.eqb "/var" tmpdir then
      [("/var", small_recommendation); ("/usr/local/bin", small_recommendation)]
    else if String.eqb "/usr/local/bin" tmpdir then
      [("/var", var_recommendation); ("/usr/local/bin", small_recommendation)]
    else
      [("/var", var_recommendation); ("/usr/local/bin", small_recommendation);
       (tmpdir, small_recommendation)].
Proof.
  unfold dict_items, recommended_disk_space_bytes, dict_of_list.
  cbn [fold_left fst snd dict_set].
  change (String.eqb "/var" "/usr/local/bin") with false. cbv iota.
  cbn [dict_set].
  destruct (String.eqb "/var" tmpdir) eqn:E1; [reflexivity|].
  destruct (String.eqb "/usr/local/bin" tmpdir) eqn:E2; reflexivity.
Qed.

Lemma upgrade_table_items :
  dict_items recommended_disk_upgrade_bytes = [("/var", var_upgrade_recommendation)].
Proof. reflexivity. Qed.

Lemma install_table_head (tmpdir : string) :
  exists recommendation rest,
    dict_items (recommended_disk_space_bytes tmpdir) = ("/var", recommendation) :: rest.
Proof.
  rewrite install_table_items.
  destruct (String.eqb "/var" tmpdir); [eauto|].
  destruct (String.eqb "/usr/local/bin" tmpdir); eauto.
Qed.

Lemma active_groups_eq (tmpdir : string) :
  active_groups tmpdir = ["masters"; "nodes"; "etcd"].
Proof.
  unfold active_groups.
  change (recommended_disk_space_bytes tmpdir)
    with (dict_items (recommended_disk_space_bytes tmpdir)).
  rewrite install_table_items.
  destruct (String.eqb "/var" tmpdir); [reflexivity|].
  destruct (String.eqb "/usr/local/bin" tmpdir); reflexivity.
Qed.

Lemma mentioned_iff (tmpdir role : string) :
  mentioned tmpdir role <-> In role (active_groups tmpdir).
Proof.
  rewrite active_groups_eq. unfold mentioned. rewrite install_table_items.
  split.
  - intros (path & recommendation & Hin & Hrole).
    destruct (String.eqb "/var" tmpdir);
      [|destruct (String.eqb "/usr/local/bin" tmpdir)];
      simpl in Hin; intuition;
      match goal with H : (_, _) = (_, _) |- _ => inversion H; subst; clear H end;
      exact Hrole.
  - intros Hrole. exists "/usr/local/bin", small_recommendation. split; [|exact Hrole].
    destruct (String.eqb "/var" tmpdir);
      [|destruct (String.eqb "/usr/local/bin" tmpdir)]; simpl; auto.
Qed.

(** ** Activation *)

Lemma str_mem_In (x : string) (l : list string) :
  str_mem x l = true <-> In x l.
Proof.
  unfold str_mem. rewrite existsb_exists. split.
  - intros (y & Hy & E). apply String.eqb_eq in E. now subst.
  - intros H. exists x. split; [exact H | apply String.eqb_refl].
Qed.

Lemma set_intersection_truthy (s xs : list string) :
  set_truthy (set_intersection s xs) = true <-> exists x, In x s /\ In x xs.
Proof.
  unfold set_intersection. split.
  - destruct (filter _ s) as [|x rest] eqn:E; [discriminate|]. intros _.
    assert (H : In x (filter (fun y => str_mem y xs) s)) by (rewrite E; now left).
    apply filter_In in H. destruct H as [H1 H2].
    exists x. split; [exact H1 | now apply str_mem_In].
  - intros (x & H1 & H2).
    assert (H : In x (filter (fun y => str_mem y xs) s)).
    { apply filter_In. split; [exact H1 | now apply str_mem_In]. }
    destruct (filter _ s); [destruct H | reflexivity].
Qed.

Lemma has_disk_space_recommendation_iff (tmpdir : string)
    (group_names : option (list string)) :
  has_disk_space_recommendation tmpdir group_names = true <->
  exists role, In role (get_var_default group_names []) /\ mentioned tmpdir role.
Proof.
  unfold has_disk_space_recommendation. cbv zeta.
  rewrite set_intersection_truthy. split.
  - intros (x & H1 & H2). exists x. split; [exact H2 | now apply mentioned_iff].
  - intros (x & H1 & H2). exists x. split; [now apply mentioned_iff | exact H1].
Qed.

(** C4. A host none of whose groups is mentioned by the install table is
    inactive, whatever the inherited predicate says; a host with a mentioned
    group is active exactly when the inherited predicate holds. *)
Theorem is_active_by_role_intersection (tmpdir : string) (super_is_active : bool)
    (group_names : option (list string)) :
  ((forall role, In role (get_var_default group_names []) -> ~ mentioned tmpdir role) ->
   is_active tmpdir super_is_active group_names = false)
  /\ ((exists role, In role (get_var_default group_names []) /\ mentioned tmpdir role) ->
      is_active tmpdir super_is_active group_names = super_is_active).
Proof.
  unfold is_active. split.
  - intros Hnone.
    destruct (has_disk_space_recommendation tmpdir group_names) eqn:E.
    + apply has_disk_space_recommendation_iff in E.
      destruct E as (role & Hin & Hm). exfalso. exact (Hnone role Hin Hm).
    + apply andb_false_r.
  - intros Hsome. apply has_disk_space_recommendation_iff in Hsome.
    rewrite Hsome. apply andb_true_r.
Qed.

Lemma mentioned_etcd : mentioned "/tmp" "etcd".
Proof. apply mentioned_iff. rewrite active_groups_eq. simpl. auto. Defined.

Lemma not_mentioned_lb : ~ mentioned "/tmp" "lb".
Proof.
  intros H. apply mentioned_iff in H. rewrite active_groups_eq in H.
  simpl in H. intuition discriminate.
Defined.

Lemma is_active_by_role_intersection_witness :
  is_active "/tmp" true (Some ["lb"]) = false
  /\ is_active "/tmp" true (Some ["lb"; "etcd"]) = true
  /\ is_active "/tmp" false (Some ["lb"; "etcd"]) = false.
Proof.
  split; [|split].
  - apply (proj1 (is_active_by_role_intersection "/tmp" true (Some ["lb"]))).
    intros role [E | []]. subst role. exact not_mentioned_lb.
  - apply (proj2 (is_active_by_role_intersection "/tmp" true (Some ["lb"; "etcd"]))).
    exists "etcd". split; [simpl; auto | exact mentioned_etcd].
  - apply (proj2 (is_active_by_role_intersection "/tmp" false (Some ["lb"; "etcd"]))).
    exists "etcd". split; [simpl; auto | exact mentioned_etcd].
Defined.

(** ** Maximum over the host's groups *)

Lemma max_from_Z_spec (l : list Z) : forall cur : Z,
  (max_from Z.gtb cur l = cur \/ In (max_from Z.gtb cur l) l)
  /\ cur <= max_from Z.gtb cur l
  /\ (forall x, In x l -> x <= max_from Z.gtb cur l).
Proof.
  induction l as [|y l IH]; intros cur; simpl.
  - repeat split; [now left | lia | intros x []].
  - destruct (IH (if Z.gtb y cur then y else cur)) as (Hsel & Hge & Hall).
    assert (Hcur : cur <= (if Z.gtb y cur then y else cur)
                   /\ y <= (if Z.gtb y cur then y else cur)).
    { rewrite Z.gtb_ltb. destruct (Z.ltb_spec cur y); lia. }
    repeat split.
    + destruct Hsel as [Hsel | Hsel]; [|now right; right].
      rewrite Hsel. destruct (Z.gtb y cur); [right; now left | now left].
    + lia.
    + intros x [Hx | Hx]; [subst x; lia | now apply Hall].
Qed.

Lemma py_max_Z_spec (f : string -> Z) (names : list string) :
  names <> [] ->
  exists m, py_max Z.gtb (map f names) = Return m /\ is_max_over f names m.
Proof.
  destruct names as [|n names]; [congruence|]. intros _. simpl.
  exists (max_from Z.gtb (f n) (map f names)). split; [reflexivity|].
  destruct (max_from_Z_spec (map f names) (f n)) as (Hsel & Hge & Hall).
  split.
  - destruct Hsel as [Hsel | Hsel].
    + exists n. split; [now left | now rewrite Hsel].
    + apply in_map_iff in Hsel. destruct Hsel as (x & Hx & Hin).
      exists x. split; [now right | exact Hx].
  - intros x [Hx | Hx]; [subst x; exact Hge|].
    apply Hall. now apply in_map.
Qed.

Lemma is_max_over_unique (f : string -> Z) (names : list string) (m m' : Z) :
  is_max_over f names m -> is_max_over f names m' -> m = m'.
Proof.
  intros [(n & Hn & En) Hm] [(n' & Hn' & En') Hm'].
  specialize (Hm n' Hn'). specialize (Hm' n Hn). lia.
Qed.

(** ** Mount resolution *)

Lemma ascii_compare_trans_le (a b c : ascii) :
  Ascii.compare a b <> Gt -> Ascii.compare b c <> Gt -> Ascii.compare a c <> Gt.
Proof.
  unfold Ascii.compare. intros H1 H2.
  apply N.compare_le_iff. apply N.compare_le_iff in H1, H2.
  now apply N.le_trans with (N_of_ascii b).
Qed.

Lemma string_compare_trans_le (s1 : string) : forall s2 s3 : string,
  String.compare s1 s2 <> Gt -> String.compare s2 s3 <> Gt -> String.compare s1 s3 <> Gt.
Proof.
  induction s1 as [|a s1 IH]; intros [|b s2] [|c s3]; simpl; try congruence.
  intros H12 H23.
  destruct (Ascii.compare a b) eqn:Eab; try congruence.
  - apply Ascii.compare_eq_iff in Eab. subst b.
    destruct (Ascii.compare a c) eqn:Eac; try congruence.
    now apply IH with s2.
  - destruct (Ascii.compare b c) eqn:Ebc; try congruence.
    + apply Ascii.compare_eq_iff in Ebc. subst c. rewrite Eab. congruence.
    + assert (Hac : Ascii.compare a c <> Gt).
      { apply ascii_compare_trans_le with b; congruence. }
      destruct (Ascii.compare a c) eqn:Eac; try congruence.
      apply Ascii.compare_eq_iff in Eac. subst c.
      rewrite Ascii.compare_antisym in Ebc. rewrite Eab in Ebc. discriminate.
Qed.

Lemma string_leb_trans (s1 s2 s3 : string) :
  String.leb s1 s2 = true -> String.leb s2 s3 = true -> String.leb s1 s3 = true.
Proof.
  unfold String.leb. intros H12 H23.
  assert (H : String.compare s1 s3 <> Gt).
  { apply string_compare_trans_le with s2.
    - destruct (String.compare s1 s2); congruence.
    - destruct (String.compare s2 s3); congruence. }
  destruct (String.compare s1 s3); congruence.
Qed.

Lemma sorted_spec (l : list string) :
  Permutation l (sorted l)
  /\ StronglySorted (fun a b => String.leb a b = true) (sorted l).
Proof.
  split.
  - apply StringSort.Permuted_sort.
  - apply Sorted_StronglySorted.
    + intros a b c. apply string_leb_trans.
    + apply StringSort.Sorted_sort.
Qed.

Lemma concat_quoted_truthy (sep : string) (k : string) (ks : list string) :
  str_truthy (String.concat sep (map quoted (k :: ks))) = true.
Proof. simpl. destruct (map quoted ks); reflexivity. Qed.

Lemma known_mounts_empty : known_mounts [] = "none".
Proof. reflexivity. Qed.

Lemma known_mounts_nonempty (ansible_mounts : dict mount_record) :
  ansible_mounts <> [] ->
  known_mounts ansible_mounts =
    String.concat ", " (map quoted (sorted (dict_keys ansible_mounts))).
Proof.
  intros Hne. unfold known_mounts. cbv zeta.
  destruct (sorted (dict_keys ansible_mounts)) as [|k ks] eqn:E.
  - exfalso. destruct ansible_mounts as [|kv rest]; [congruence|].
    pose proof (proj1 (sorted_spec (dict_keys (kv :: rest)))) as HP.
    rewrite E in HP. apply Permutation_sym, Permutation_nil in HP. discriminate.
  - now rewrite concat_quoted_truthy.
Qed.

(** The mount point the loop stops at is the [k]-th ancestor of the path,
    for the least [k] below [max_depth] whose ancestor is a key, and
    [max_depth] itself when there is none. *)
Lemma find_mount_point_spec (ansible_mounts : dict mount_record) (max_depth : nat) :
  forall path : string,
  exists k : nat,
    (k <= max_depth)%nat
    /\ find_mount_point max_depth path ansible_mounts = Nat.iter k dirname path
    /\ (forall j, (j < k)%nat -> dict_mem (Nat.iter j dirname path) ansible_mounts = false)
    /\ ((k < max_depth)%nat -> dict_mem (Nat.iter k dirname path) ansible_mounts = true).
Proof.
  induction max_depth as [|d IH]; intros path.
  - exists O. simpl. repeat split; [lia | intros j; lia | lia].
  - simpl. destruct (dict_mem path ansible_mounts) eqn:E.
    + exists O. simpl. repeat split; [lia | intros j; lia | now intros _].
    + destruct (IH (dirname path)) as (k & Hk & Hfind & Hbefore & Hat).
      exists (S k). rewrite Nat.iter_succ_r. repeat split.
      * lia.
      * exact Hfind.
      * intros [|j] Hj; [exact E|]. rewrite Nat.iter_succ_r. apply Hbefore. lia.
      * intros Hlt. apply Hat. lia.
Qed.

Lemma find_mount_point_first (ansible_mounts : dict mount_record) (max_depth : nat)
    (path : string) (k : nat) :
  (k <= max_depth)%nat ->
  (forall j, (j < k)%nat -> dict_mem (Nat.iter j dirname path) ansible_mounts = false) ->
  (k < max_depth -> dict_mem (Nat.iter k dirname path) ansible_mounts = true)%nat ->
  find_mount_point max_depth path ansible_mounts = Nat.iter k dirname path.
Proof.
  intros Hk Hbefore Hat.
  destruct (find_mount_point_spec ansible_mounts max_depth path)
    as (k' & Hk' & Hfind & Hbefore' & Hat').
  rewrite Hfind. f_equal.
  destruct (Nat.lt_trichotomy k k') as [Hlt | [Heq | Hgt]]; [|exact (eq_sym Heq)|].
  - specialize (Hbefore' k Hlt). rewrite Hat in Hbefore' by lia. discriminate.
  - specialize (Hbefore k' Hgt). rewrite Hat' in Hbefore by lia. discriminate.
Qed.

Lemma dict_mem_false {V : Type} (d : dict V) (k : string) :
  dict_mem k d = false -> dict_get d k = None.
Proof. unfold dict_mem. destruct (dict_get d k); [discriminate | reflexivity]. Qed.

Lemma dict_mem_true {V : Type} (d : dict V) (k : string) (v : V) :
  dict_get d k = Some v -> dict_mem k d = true.
Proof. unfold dict_mem. now intros ->. Qed.

Lemma free_bytes_at (ansible_mounts : dict mount_record) (path : string) (k : nat) :
  (k <= 32)%nat ->
  (forall j, (j < k)%nat -> dict_mem (Nat.iter j dirname path) ansible_mounts = false) ->
  (k < 32 -> dict_mem (Nat.iter k dirname path) ansible_mounts = true)%nat ->
  free_bytes path ansible_mounts =
    match dict_get ansible_mounts (Nat.iter k dirname path) with
    | Some {| size_available := Some n |} => Return n
    | _ => Raise (OpenShiftCheckException
                    (unable_msg path (known_mounts ansible_mounts)))
    end.
Proof.
  intros Hk Hbefore Hat. unfold free_bytes. cbv zeta.
  rewrite (find_mount_point_first ansible_mounts 32 path k Hk Hbefore Hat).
  unfold dict_getitem.
  destruct (dict_get ansible_mounts (Nat.iter k dirname path)) as [entry|]; [|reflexivity].
  destruct entry as [mnt [n|]]; reflexivity.
Qed.

(** C3. [free_bytes] inspects the path and at most 32 of its ancestors,
    nearest first.  When none of them is a key of the mount table, or when
    the first that is has no ['size_available'], it raises
    [OpenShiftCheckException]; the message ends with the keys of the mount
    table in sorted order, each between double quotes, joined by a comma and
    a space, and with [none] for an empty table. *)
Theorem free_bytes_unresolved_raises (path : string) (ansible_mounts : dict mount_record) :
  (exists k : nat,
      (k <= 32)%nat
      /\ find_mount_point 32 path ansible_mounts = Nat.iter k dirname path)
  /\ ((forall k, (k <= 32)%nat ->
         dict_mem (Nat.iter k dirname path) ansible_mounts = false) ->
      free_bytes path ansible_mounts =
        Raise (OpenShiftCheckException (unable_msg path (known_mounts ansible_mounts))))
  /\ (forall (k : nat) (entry : mount_record),
        (k <= 32)%nat ->
        (forall j, (j < k)%nat ->
           dict_mem (Nat.iter j dirname path) ansible_mounts = false) ->
        dict_get ansible_mounts (Nat.iter k dirname path) = Some entry ->
        size_available entry = None ->
        free_bytes path ansible_mounts =
          Raise (OpenShiftCheckException (unable_msg path (known_mounts ansible_mounts))))
  /\ (ansible_mounts = [] -> known_mounts ansible_mounts = "none")
  /\ (ansible_mounts <> [] ->
      exists keys : list string,
        Permutation (dict_keys ansible_mounts) keys
        /\ StronglySorted (fun a b => String.leb a b = true) keys
        /\ known_mounts ansible_mounts = String.concat ", " (map quoted keys)).
Proof.
  split; [|split; [|split; [|split]]].
  - destruct (find_mount_point_spec ansible_mounts 32 path) as (k & Hk & Hfind & _).
    exists k. now split.
  - intros Hnone.
    rewrite (free_bytes_at ansible_mounts path 32).
    + rewrite (dict_mem_false _ _ (Hnone 32%nat (Nat.le_refl _))). reflexivity.
    + apply Nat.le_refl.
    + intros j Hj. apply Hnone. lia.
    + intros Hlt. exfalso. lia.
  - intros k entry Hk Hbefore Hget Hsize.
    rewrite (free_bytes_at ansible_mounts path k Hk Hbefore).
    + rewrite Hget. destruct entry as [mnt size]. simpl in Hsize. now subst size.
    + intros _. exact (dict_mem_true _ _ _ Hget).
  - intros ->. exact known_mounts_empty.
  - intros Hne. exists (sorted (dict_keys ansible_mounts)).
    destruct (sorted_spec (dict_keys ansible_mounts)) as [HP HS].
    split; [exact HP|]. split; [exact HS|].
    now apply known_mounts_nonempty.
Qed.

Lemma free_bytes_unresolved_raises_witness :
  free_bytes "/usr/local/bin" [] =
    Raise (OpenShiftCheckException
             ("Unable to determine disk availability for " ++ dquote
                ++ "/usr/local/bin" ++ dquote ++ ". Known mount points: none."))
  /\ free_bytes "/var/lib"
       [("/var", {| mount := "/var"; size_available := None |});
        ("/", mount_int "/" 50000000000)] =
     Raise (OpenShiftCheckException
              ("Unable to determine disk availability for " ++ dquote
                 ++ "/var/lib" ++ dquote ++ ". Known mount points: "
                 ++ dquote ++ "/" ++ dquote ++ ", "
                 ++ dquote ++ "/var" ++ dquote ++ ".")).
Proof.
  split.
  - destruct (free_bytes_unresolved_raises "/usr/local/bin" [])
      as (_ & Hnone & _ & Hknown & _).
    rewrite Hnone.
    + rewrite Hknown by reflexivity. reflexivity.
    + intros k _. reflexivity.
  - destruct (free_bytes_unresolved_raises "/var/lib"
                [("/var", {| mount := "/var"; size_available := None |});
                 ("/", mount_int "/" 50000000000)])
      as (_ & _ & Hentry & _ & _).
    rewrite (Hentry 1%nat {| mount := "/var"; size_available := None |}).
    + reflexivity.
    + lia.
    + intros j Hj. assert (j = 0)%nat by lia. subst j. reflexivity.
    + reflexivity.
    + reflexivity.
Defined.

(** ** Gigabytes and bytes *)

Lemma float_of_Z_giga : float_of_Z (10 ^ 9) = Return 1000000000%float.
Proof. vm_compute. reflexivity. Qed.

Lemma num_mul_int_giga (m : num) :
  num_mul_int m (10 ^ 9) =
    Return match m with
           | PInt g => PInt (g * 1000000000)
           | PFloat f => PFloat (PrimFloat.mul f 1000000000)
           end.
Proof.
  destruct m as [g | f]; unfold num_mul_int.
  - reflexivity.
  - now rewrite float_of_Z_giga.
Qed.

Lemma float_div_int_giga (f : float) :
  float_div_int f (10 ^ 9) = Return (PrimFloat.div f 1000000000).
Proof.
  unfold float_div_int. change (10 ^ 9 =? 0) with false. cbv iota.
  now rewrite float_of_Z_giga.
Qed.


(** ** The two forms of the override *)

Lemma max_from_In {A : Type} (gt : A -> A -> bool) (l : list A) : forall cur : A,
  max_from gt cur l = cur \/ In (max_from gt cur l) l.
Proof.
  induction l as [|x l IH]; intros cur; simpl; [now left|].
  destruct (IH (if gt x cur then x else cur)) as [H | H]; [|now right; right].
  rewrite H. destruct (gt x cur); [right; now left | now left].
Qed.

Lemma max_from_const {A : Type} (gt : A -> A -> bool) (l : list A) (cur : A) :
  (forall x, In x l -> x = cur) -> max_from gt cur l = cur.
Proof.
  intros Hall. destruct (max_from_In gt l cur) as [H | H]; [exact H|].
  now apply Hall.
Qed.

Lemma py_max_const {A B : Type} (gt : B -> B -> bool) (f : A -> B) (l : list A) (c : B) :
  l <> [] -> (forall x, In x l -> f x = c) -> py_max gt (map f l) = Return c.
Proof.
  destruct l as [|x l]; [congruence|]. intros _ Hall. simpl.
  rewrite (Hall x (or_introl eq_refl)). f_equal.
  apply max_from_const. intros y Hy.
  apply in_map_iff in Hy. destruct Hy as (z & <- & Hz). apply Hall. now right.
Qed.

Lemma config_bytes_for_absent (d : dict (dict num)) (path : string)
    (group_names : list string) :
  group_names <> [] -> dict_get d path = None ->
  config_bytes_for (CDict d) path group_names = Return (PInt 0).
Proof.
  intros Hne Hget. unfold config_bytes_for, config_get, dict_get_default at 1.
  rewrite Hget. cbn [bind].
  rewrite (py_max_const num_gt _ group_names (PInt 0) Hne) by reflexivity.
  reflexivity.
Qed.

Lemma legacy_config_items (number : float) :
  legacy_config number =
    [("/var", [("masters", PFloat number); ("nodes", PFloat number);
               ("etcd", PFloat number)])].
Proof. reflexivity. Qed.

(** C2. A number for [openshift_check_min_host_disk_gb] becomes the mapping
    that gives ['/var'] that many gigabytes for masters, nodes and etcd and
    says nothing of any other path; on a mapping [float()] raises
    [TypeError], the handler swallows it, and the mapping is used as given. *)
Theorem number_or_mapping_override (float_of_string : string -> option float)
    (float_repr : float -> string) :
  (forall (n : num) (f : float),
      num_float n = Return f ->
      normalize_user_config float_of_string (CNum n) =
        Return (CDict [("/var", [("masters", PFloat f); ("nodes", PFloat f);
                                 ("etcd", PFloat f)])]))
  /\ (forall (f : float) (path : string) (group_names : list string),
        path <> "/var" -> group_names <> [] ->
        config_bytes_for (CDict (legacy_config f)) path group_names = Return (PInt 0))
  /\ (forall (f : float) (group_names : list string),
        group_names <> [] ->
        (forall name, In name group_names -> In name ["masters"; "nodes"; "etcd"]) ->
        config_bytes_for (CDict (legacy_config f)) "/var" group_names =
          Return (PFloat (PrimFloat.mul f 1000000000)))
  /\ (forall d : dict (dict num),
        py_float float_of_string (CDict d) = Raise TypeError
        /\ normalize_user_config float_of_string (CDict d) = Return (CDict d))
  /\ (forall (tmpdir : string) (group_names : list string)
             (ansible_mounts : list mount_record) (context : option string)
             (d : dict (dict num)),
        run tmpdir float_of_string float_repr group_names ansible_mounts
            (Some (CDict d)) context =
          check_paths float_repr group_names (mounts_by_path ansible_mounts)
            (CDict d) context (dict_items (recommended_disk_space_bytes tmpdir))).
Proof.
  split; [|split; [|split; [|split]]].
  - intros n f Hf. unfold normalize_user_config, py_float. rewrite Hf. reflexivity.
  - intros f path group_names Hpath Hne.
    apply config_bytes_for_absent; [exact Hne|].
    rewrite legacy_config_items. cbn [dict_get].
    destruct (String.eqb_spec "/var" path); [congruence | reflexivity].
  - intros f group_names Hne Hroles.
    unfold config_bytes_for, config_get. rewrite legacy_config_items. cbn [bind].
    change (dict_get_default _ "/var" [])
      with [("masters", PFloat f); ("nodes", PFloat f); ("etcd", PFloat f)].
    rewrite (py_max_const num_gt _ group_names (PFloat f) Hne).
    + cbn [bind]. now rewrite num_mul_int_giga.
    + intros name Hin. specialize (Hroles name Hin).
      simpl in Hroles. destruct Hroles as [<- | [<- | [<- | []]]]; reflexivity.
  - intros d. split; reflexivity.
  - intros. reflexivity.
Qed.

Lemma number_or_mapping_override_witness :
  normalize_user_config no_float_of_string (CNum (PInt 3)) =
    Return (CDict [("/var", [("masters", PFloat 3); ("nodes", PFloat 3);
                             ("etcd", PFloat 3)])])
  /\ config_bytes_for (CDict (legacy_config 3)) "/usr/local/bin" ["masters"] =
       Return (PInt 0)
  /\ config_bytes_for (CDict (legacy_config 3)) "/var" ["masters"] =
       Return (PFloat 3000000000).
Proof.
  destruct (number_or_mapping_override no_float_of_string no_float_repr)
    as (Hnum & Hother & Hvar & _).
  split; [|split].
  - apply Hnum. vm_compute. reflexivity.
  - apply Hother; discriminate.
  - rewrite Hvar.
    + vm_compute. reflexivity.
    + discriminate.
    + intros name [<- | []]. simpl. auto.
Defined.

(** ** The requirement of a path *)

Lemma upgrade_table_get (path : string) :
  dict_get recommended_disk_upgrade_bytes path =
    if String.eqb "/var" path then Some var_upgrade_recommendation else None.
Proof. reflexivity. Qed.

Lemma num_truthy_PInt (z : Z) : num_truthy (PInt z) = true <-> z <> 0.
Proof.
  simpl. destruct (Z.eqb_spec z 0); simpl; split; congruence.
Qed.

(** Outside an upgrade the requirement is the override when it is not zero,
    and the baseline of the install table otherwise. *)
Lemma required_bytes_install (group_names : list string) (user_config : config_value)
    (context path : string) (recommendation : dict Z) (config_bytes : num) :
  group_names <> [] ->
  config_bytes_for user_config path group_names = Return config_bytes ->
  String.eqb context "upgrade" = false ->
  exists m,
    is_max_over (fun name => dict_get_default recommendation name 0) group_names m
    /\ required_bytes group_names user_config context path recommendation =
         Return (config_bytes, num_or config_bytes (PInt m)).
Proof.
  intros Hne Hcfg Hctx.
  destruct (py_max_Z_spec (fun name => dict_get_default recommendation name 0)
              group_names Hne) as (m & Hm & Hmax).
  exists m. split; [exact Hmax|].
  unfold required_bytes, baseline_bytes. rewrite Hm, Hcfg. cbn [bind].
  unfold upgrade_bytes. rewrite Hctx. reflexivity.
Qed.

Lemma required_bytes_upgrade_absent (group_names : list string)
    (user_config : config_value) (path : string) (recommendation : dict Z) :
  dict_get recommended_disk_upgrade_bytes path = None ->
  forall context : string,
    required_bytes group_names user_config "upgrade" path recommendation =
      required_bytes group_names user_config context path recommendation.
Proof.
  intros Hget context.
  assert (Hd : dict_get_default recommended_disk_upgrade_bytes path [] = []).
  { unfold dict_get_default. now rewrite Hget. }
  unfold required_bytes.
  destruct (baseline_bytes recommendation group_names) as [b|e]; [|reflexivity].
  cbn [bind].
  destruct (config_bytes_for user_config path group_names) as [cb|e]; [|reflexivity].
  cbn [bind]. unfold upgrade_bytes. rewrite Hd.
  change (String.eqb "upgrade" "upgrade") with true.
  cbn [dict_truthy]. destruct (String.eqb context "upgrade"); reflexivity.
Qed.

(** C5. During an upgrade, with [cb] the override in bytes: a path of the
    upgrade table takes the largest of the host's groups' upgrade minima
    when [cb] is zero; a path the upgrade table does not list takes what it
    takes during an install; and a non-zero [cb] is the requirement in every
    case. *)
Theorem upgrade_requirement (group_names : list string) (user_config : config_value)
    (path : string) (recommendation : dict Z) (config_bytes : num) :
  group_names <> [] ->
  config_bytes_for user_config path group_names = Return config_bytes ->
  (forall upgrade_recommendation : dict Z,
      dict_get recommended_disk_upgrade_bytes path = Some upgrade_recommendation ->
      num_truthy config_bytes = false ->
      exists m,
        is_max_over (fun name => dict_get_default upgrade_recommendation name 0)
                    group_names m
        /\ required_bytes group_names user_config "upgrade" path recommendation =
             Return (config_bytes, PInt m))
  /\ (dict_get recommended_disk_upgrade_bytes path = None ->
      forall context : string,
        required_bytes group_names user_config "upgrade" path recommendation =
          required_bytes group_names user_config context path recommendation)
  /\ (num_truthy config_bytes = true ->
      forall context : string,
        required_bytes group_names user_config context path recommendation =
          Return (config_bytes, config_bytes)).
Proof.
  intros Hne Hcfg.
  destruct (py_max_Z_spec (fun name => dict_get_default recommendation name 0)
              group_names Hne) as (b & Hb & _).
  split; [|split].
  - intros u Hget Hzero.
    destruct (py_max_Z_spec (fun name => dict_get_default u name 0)
                group_names Hne) as (m & Hm & Hmax).
    exists m. split; [exact Hmax|].
    rewrite upgrade_table_get in Hget.
    destruct (String.eqb "/var" path) eqn:Epath; [|discriminate].
    injection Hget as <-.
    assert (Hd : dict_get_default recommended_disk_upgrade_bytes path [] =
                 var_upgrade_recommendation).
    { unfold dict_get_default. now rewrite upgrade_table_get, Epath. }
    unfold required_bytes, baseline_bytes. rewrite Hb, Hcfg. cbn [bind].
    unfold upgrade_bytes. rewrite Hd.
    change (String.eqb "upgrade" "upgrade") with true.
    change (dict_truthy var_upgrade_recommendation) with true. cbv iota.
    rewrite Hzero, Hm. reflexivity.
  - intros Hget context. now apply required_bytes_upgrade_absent.
  - intros Htrue context.
    unfold required_bytes, baseline_bytes. rewrite Hb, Hcfg. cbn [bind].
    unfold upgrade_bytes, num_or. rewrite Htrue.
    destruct (String.eqb context "upgrade"); [|reflexivity].
    destruct (dict_truthy _); reflexivity.
Qed.

Lemma upgrade_requirement_witness :
  required_bytes ["nodes"; "etcd"] (CDict []) "upgrade" "/var" var_recommendation =
    Return (PInt 0, PInt 5000000000)
  /\ required_bytes ["nodes"] (CDict []) "upgrade" "/usr/local/bin" small_recommendation =
       required_bytes ["nodes"] (CDict []) EmptyString "/usr/local/bin"
         small_recommendation
  /\ required_bytes ["nodes"] (CDict [("/var", [("nodes", PInt 7)])]) "upgrade" "/var"
       var_recommendation =
       Return (PInt 7000000000, PInt 7000000000).
Proof.
  split; [|split].
  - destruct (upgrade_requirement ["nodes"; "etcd"] (CDict []) "/var" var_recommendation
                (PInt 0)) as (Hup & _ & _); [discriminate | reflexivity |].
    destruct (Hup var_upgrade_recommendation) as (m & Hmax & Hreq);
      [reflexivity | reflexivity |].
    rewrite Hreq. do 2 f_equal. f_equal.
    apply (is_max_over_unique _ _ _ _ Hmax). split.
    + exists "nodes". split; [simpl; auto | reflexivity].
    + intros name [<- | [<- | []]]; vm_compute; discriminate.
  - destruct (upgrade_requirement ["nodes"] (CDict []) "/usr/local/bin"
                small_recommendation (PInt 0)) as (_ & Habsent & _);
      [discriminate | reflexivity |].
    apply Habsent. reflexivity.
  - destruct (upgrade_requirement ["nodes"] (CDict [("/var", [("nodes", PInt 7)])])
                "/var" var_recommendation (PInt 7000000000)) as (_ & _ & Hover);
      [discriminate | reflexivity |].
    apply Hover. reflexivity.
Defined.

(** C7. For a non-empty list of groups the baseline of a path is the
    largest of the per-group minima of that path, a group the path does not
    list counting for 0; hence a host in several listed groups gets the
    largest of their minima, never less than any of them.  With no override
    and outside an upgrade this baseline is the requirement the free space
    is compared with. *)
Theorem baseline_is_max_over_groups (recommendation : dict Z) (group_names : list string) :
  group_names <> [] ->
  exists m,
    baseline_bytes recommendation group_names = Return m
    /\ is_max_over (fun name => dict_get_default recommendation name 0) group_names m
    /\ (forall name bytes,
          In name group_names -> dict_get recommendation name = Some bytes -> bytes <= m)
    /\ (forall name,
          In name group_names -> dict_get recommendation name = None -> 0 <= m)
    /\ (forall path context : string,
          String.eqb context "upgrade" = false ->
          required_bytes group_names (CDict []) context path recommendation =
            Return (PInt 0, PInt m)).
Proof.
  intros Hne. unfold baseline_bytes.
  destruct (py_max_Z_spec (fun name => dict_get_default recommendation name 0)
              group_names Hne) as (m & Hm & Hmax).
  exists m. split; [exact Hm|]. split; [exact Hmax|].
  split; [|split].
  - intros name bytes Hin Hget. destruct Hmax as [_ Hall]. specialize (Hall name Hin).
    unfold dict_get_default in Hall. now rewrite Hget in Hall.
  - intros name Hin Hget. destruct Hmax as [_ Hall]. specialize (Hall name Hin).
    unfold dict_get_default in Hall. now rewrite Hget in Hall.
  - intros path context Hctx.
    destruct (required_bytes_install group_names (CDict []) context path recommendation
                (PInt 0) Hne (config_bytes_for_absent [] path group_names Hne eq_refl)
                Hctx) as (m' & Hmax' & Hreq).
    rewrite Hreq. now rewrite (is_max_over_unique _ _ _ _ Hmax' Hmax).
Qed.

Lemma baseline_is_max_over_groups_witness :
  exists m,
    baseline_bytes var_recommendation ["nodes"; "lb"; "masters"; "etcd"] = Return m
    /\ m = 40000000000.
Proof.
  destruct (baseline_is_max_over_groups var_recommendation
              ["nodes"; "lb"; "masters"; "etcd"]) as (m & Hm & Hmax & _).
  - discriminate.
  - exists m. split; [exact Hm|].
    apply (is_max_over_unique _ _ _ _ Hmax).
    split.
    + exists "masters". split; [simpl; auto | reflexivity].
    + intros name [E | [E | [E | [E | []]]]]; subst name; vm_compute; discriminate.
Defined.

(** ** The loop over the monitored paths *)

Lemma failure_eq (float_repr : float -> string) (path context : string)
    (free config_bytes recommended_bytes : num) (free_f recommended_f : float) :
  num_float free = Return free_f ->
  num_float recommended_bytes = Return recommended_f ->
  failure float_repr path context free config_bytes recommended_bytes =
    Return (failed_result path free_f recommended_f).
Proof.
  intros Hf Hr. unfold failure. rewrite Hf. cbn [bind].
  rewrite float_div_int_giga. cbn [bind]. rewrite Hr. cbn [bind].
  rewrite float_div_int_giga. reflexivity.
Qed.

Lemma check_path_passes (float_repr : float -> string) (group_names : list string)
    (ansible_mounts : dict mount_record) (user_config : config_value)
    (context : option string) (path : string) (recommendation : dict Z) :
  path_passes group_names ansible_mounts user_config context (path, recommendation) ->
  check_path float_repr group_names ansible_mounts user_config context path
    recommendation = Return None.
Proof.
  intros (free & cb & req & Hfree & Hreq & Hlt). simpl in Hfree, Hreq.
  unfold check_path. rewrite Hfree. cbn [bind]. rewrite Hreq. cbn [bind].
  now rewrite Hlt.
Qed.

Lemma check_path_fails (float_repr : float -> string) (group_names : list string)
    (ansible_mounts : dict mount_record) (user_config : config_value)
    (context : option string) (path : string) (recommendation : dict Z)
    (free config_bytes recommended_bytes : num) (free_f recommended_f : float) :
  free_bytes path ansible_mounts = Return free ->
  required_bytes group_names user_config (get_var_default context EmptyString)
    path recommendation = Return (config_bytes, recommended_bytes) ->
  num_lt free recommended_bytes = true ->
  num_float free = Return free_f ->
  num_float recommended_bytes = Return recommended_f ->
  check_path float_repr group_names ansible_mounts user_config context path
    recommendation = Return (Some (failed_result path free_f recommended_f)).
Proof.
  intros Hfree Hreq Hlt Hf Hr.
  unfold check_path. rewrite Hfree. cbn [bind]. rewrite Hreq. cbn [bind].
  rewrite Hlt. now rewrite (failure_eq _ _ _ _ _ _ _ _ Hf Hr).
Qed.

Lemma check_paths_skip (float_repr : float -> string) (group_names : list string)
    (ansible_mounts : dict mount_record) (user_config : config_value)
    (context : option string) (pre rest : list (string * dict Z)) :
  Forall (path_passes group_names ansible_mounts user_config context) pre ->
  check_paths float_repr group_names ansible_mounts user_config context (pre ++ rest)%list =
    check_paths float_repr group_names ansible_mounts user_config context rest.
Proof.
  induction 1 as [|[path recommendation] pre Hpass _ IH]; [reflexivity|].
  cbn [app check_paths]. rewrite (check_path_passes _ _ _ _ _ _ _ Hpass). exact IH.
Qed.

(** C6. [run] is the loop over the items of the install table, in the order
    the table lists them.  When the entries before some path all pass and
    that path has less free space than it requires, the result is the
    failure record of that path, whatever entries follow; when every entry
    passes, the result is the empty record. *)
Theorem first_deficient_path_decides (float_repr : float -> string)
    (group_names : list string) (ansible_mounts : dict mount_record)
    (user_config : config_value) (context : option string) :
  (forall (pre post : list (string * dict Z)) (path : string) (recommendation : dict Z)
          (free config_bytes recommended_bytes : num) (free_f recommended_f : float),
      Forall (path_passes group_names ansible_mounts user_config context) pre ->
      free_bytes path ansible_mounts = Return free ->
      required_bytes group_names user_config (get_var_default context EmptyString)
        path recommendation = Return (config_bytes, recommended_bytes) ->
      num_lt free recommended_bytes = true ->
      num_float free = Return free_f ->
      num_float recommended_bytes = Return recommended_f ->
      check_paths float_repr group_names ansible_mounts user_config context
        (pre ++ (path, recommendation) :: post)%list =
        Return [("failed", FBool true);
                ("msg", FStr (base_msg path (PrimFloat.div free_f 1000000000)
                                (PrimFloat.div recommended_f 1000000000)))])
  /\ (forall items : list (string * dict Z),
        Forall (path_passes group_names ansible_mounts user_config context) items ->
        check_paths float_repr group_names ansible_mounts user_config context items =
          Return [])
  /\ (forall (tmpdir : string) (float_of_string : string -> option float)
             (mounts : list mount_record) (override : option config_value),
        mounts_by_path mounts = ansible_mounts ->
        normalize_user_config float_of_string (get_var_default override (CDict [])) =
          Return user_config ->
        run tmpdir float_of_string float_repr group_names mounts override context =
          check_paths float_repr group_names ansible_mounts user_config context
            (dict_items (recommended_disk_space_bytes tmpdir)))
  /\ (forall tmpdir : string,
        tmpdir <> "/var" -> tmpdir <> "/usr/local/bin" ->
        map fst (dict_items (recommended_disk_space_bytes tmpdir)) =
          ["/var"; "/usr/local/bin"; tmpdir]).
Proof.
  split; [|split; [|split]].
  - intros pre post path recommendation free cb req free_f req_f
           Hpre Hfree Hreq Hlt Hf Hr.
    rewrite (check_paths_skip _ _ _ _ _ _ _ Hpre). cbn [check_paths].
    rewrite (check_path_fails _ _ _ _ _ _ _ _ _ _ _ _ Hfree Hreq Hlt Hf Hr).
    reflexivity.
  - intros items Hall.
    rewrite <- (app_nil_r items). now rewrite (check_paths_skip _ _ _ _ _ _ _ Hall).
  - intros tmpdir float_of_string mounts override Hmounts Hnorm.
    unfold run. cbv zeta. rewrite Hnorm, Hmounts. reflexivity.
  - intros tmpdir Hvar Hbin. rewrite install_table_items.
    destruct (String.eqb_spec "/var" tmpdir); [congruence|].
    destruct (String.eqb_spec "/usr/local/bin" tmpdir); [congruence|]. reflexivity.
Qed.

Lemma first_deficient_path_decides_witness :
  run "/tmp" no_float_of_string no_float_repr ["nodes"] low_root_mounts None None =
    Return [("failed", FBool true);
            ("msg", FStr (base_msg "/usr/local/bin"
                            (PrimFloat.div 500000000 1000000000)
                            (PrimFloat.div 1000000000 1000000000)))]
  /\ check_paths no_float_repr ["nodes"] (mounts_by_path low_root_mounts) (CDict []) None
       [("/var", var_recommendation)] = Return [].
Proof.
  destruct (first_deficient_path_decides no_float_repr ["nodes"]
              (mounts_by_path low_root_mounts) (CDict []) None)
    as (Hfail & Hpass & Hrun & _).
  assert (Hvar : path_passes ["nodes"] (mounts_by_path low_root_mounts) (CDict []) None
                   ("/var", var_recommendation)).
  { exists (PInt 50000000000), (PInt 0), (PInt 15000000000).
    repeat split; vm_compute; reflexivity. }
  split.
  - rewrite (Hrun "/tmp" no_float_of_string low_root_mounts None eq_refl eq_refl).
    apply (Hfail [("/var", var_recommendation)] [("/tmp", small_recommendation)]
             "/usr/local/bin" small_recommendation
             (PInt 500000000) (PInt 0) (PInt 1000000000)).
    + constructor; [exact Hvar | constructor].
    + vm_compute. reflexivity.
    + vm_compute. reflexivity.
    + vm_compute. reflexivity.
    + vm_compute. reflexivity.
    + vm_compute. reflexivity.
  - apply Hpass. constructor; [exact Hvar | constructor].
Defined.

(** ** Rendering of the message *)

Lemma failure_inv (float_repr : float -> string) (path context : string)
    (free config_bytes recommended_bytes : num) (r : dict field) :
  failure float_repr path context free config_bytes recommended_bytes = Return r ->
  exists free_f recommended_f : float,
    num_float free = Return free_f
    /\ num_float recommended_bytes = Return recommended_f
    /\ r = failed_result path free_f recommended_f.
Proof.
  unfold failure. intros H.
  destruct (num_float free) as [free_f|e] eqn:Hf; [|discriminate].
  cbn [bind] in H. rewrite float_div_int_giga in H. cbn [bind] in H.
  destruct (num_float recommended_bytes) as [recommended_f|e] eqn:Hr; [|discriminate].
  cbn [bind] in H. rewrite float_div_int_giga in H. cbn [bind] in H.
  exists free_f, recommended_f. repeat split. now injection H as <-.
Qed.

Lemma check_path_inv (float_repr : float -> string) (group_names : list string)
    (ansible_mounts : dict mount_record) (user_config : config_value)
    (context : option string) (path : string) (recommendation : dict Z)
    (r : dict field) :
  check_path float_repr group_names ansible_mounts user_config context path
    recommendation = Return (Some r) ->
  exists (free config_bytes recommended_bytes : num) (free_f recommended_f : float),
    free_bytes path ansible_mounts = Return free
    /\ required_bytes group_names user_config (get_var_default context EmptyString)
         path recommendation = Return (config_bytes, recommended_bytes)
    /\ num_lt free recommended_bytes = true
    /\ num_float free = Return free_f
    /\ num_float recommended_bytes = Return recommended_f
    /\ r = failed_result path free_f recommended_f.
Proof.
  unfold check_path. intros H.
  destruct (free_bytes path ansible_mounts) as [free|e]; [|discriminate].
  cbn [bind] in H.
  destruct (required_bytes _ _ _ _ _) as [[cb req]|e]; [|discriminate].
  cbn [bind] in H.
  destruct (num_lt free req) eqn:Hlt; [|discriminate].
  destruct (failure _ _ _ _ _ _) as [r'|e] eqn:Hfail; [|discriminate].
  cbn [bind] in H. injection H as <-.
  destruct (failure_inv _ _ _ _ _ _ _ Hfail) as (free_f & req_f & Hf & Hr & ->).
  exists free, cb, req, free_f, req_f. repeat split; assumption.
Qed.

Lemma round_half_even_nearest (n d : Z) :
  0 <= n -> 0 < d ->
  0 <= round_half_even n d
  /\ Z.abs (2 * n - 2 * round_half_even n d * d) <= d.
Proof.
  intros Hn Hd. unfold round_half_even.
  pose proof (Z.div_mod n d ltac:(lia)) as Hdm.
  pose proof (Z.mod_pos_bound n d Hd) as Hr.
  pose proof (Z.div_pos n d Hn Hd) as Hq.
  set (q := n / d) in *. set (r := n mod d) in *.
  assert (Hn' : 2 * n = 2 * (d * q) + 2 * r) by lia.
  destruct (Z.compare_spec (2 * r) d) as [E | L | G].
  - destruct (Z.even q); split; nia.
  - split; nia.
  - split; nia.
Qed.

Lemma digits_single (d : Z) : 0 <= d <= 9 -> String.length (digits d) = 1%nat.
Proof.
  intros H.
  assert (E : d = 0 \/ d = 1 \/ d = 2 \/ d = 3 \/ d = 4 \/ d = 5 \/ d = 6 \/ d = 7
              \/ d = 8 \/ d = 9) by lia.
  repeat (destruct E as [-> | E]; [reflexivity|]). subst d. reflexivity.
Qed.

(** A finite non-zero float is rendered as its sign, the integer digits, a
    point and one digit; the number rendered is the exact value of the
    float rounded to a tenth. *)
Lemma format_1f_finite (f : float) (s : bool) (m : positive) (e : Z) :
  Prim2SF f = S754_finite s m e ->
  exists tenths : Z,
    format_1f f =
      (if s then "-" else EmptyString)
        ++ digits (tenths / 10) ++ "." ++ digits (tenths mod 10)
    /\ 0 <= tenths
    /\ String.length (digits (tenths mod 10)) = 1%nat
    /\ (0 <= e -> tenths = 10 * (Z.pos m * 2 ^ e))
    /\ (e < 0 -> Z.abs (2 * (10 * Z.pos m) - 2 * tenths * 2 ^ (- e)) <= 2 ^ (- e)).
Proof.
  intros Hsf. unfold format_1f. rewrite Hsf.
  destruct (Z.leb_spec 0 e) as [He | He].
  - exists (Z.pos m * 2 ^ e * 10). split; [reflexivity|].
    assert (0 < 2 ^ e) by (apply Z.pow_pos_nonneg; lia).
    split; [nia|]. split; [|split].
    + apply digits_single.
      pose proof (Z.mod_pos_bound (Z.pos m * 2 ^ e * 10) 10). lia.
    + intros _. ring.
    + intros Hneg. exfalso. lia.
  - exists (round_half_even (Z.pos m * 10) (2 ^ (- e))). split; [reflexivity|].
    assert (Hd : 0 < 2 ^ (- e)) by (apply Z.pow_pos_nonneg; lia).
    destruct (round_half_even_nearest (Z.pos m * 10) (2 ^ (- e)) ltac:(lia) Hd)
      as [Hnn Hnear].
    split; [exact Hnn|]. split; [|split].
    + apply digits_single.
      pose proof (Z.mod_pos_bound (round_half_even (Z.pos m * 10) (2 ^ (- e))) 10).
      lia.
    + intros Hpos. exfalso. lia.
    + intros _. replace (10 * Z.pos m) with (Z.pos m * 10) by ring. exact Hnear.
Qed.

Lemma config_bytes_for_gigabytes (d : dict (dict num)) (path : string)
    (group_names : list string) :
  group_names <> [] ->
  exists gb : num,
    In gb (map (fun name => dict_get_default (dict_get_default d path []) name (PInt 0))
               group_names)
    /\ config_bytes_for (CDict d) path group_names =
         Return match gb with
                | PInt g => PInt (g * 1000000000)
                | PFloat f => PFloat (PrimFloat.mul f 1000000000)
                end.
Proof.
  intros Hne. unfold config_bytes_for, config_get. cbn [bind].
  destruct group_names as [|name names]; [congruence|].
  cbn [map py_max bind].
  set (g := fun name => dict_get_default (dict_get_default d path []) name (PInt 0)).
  exists (max_from num_gt (g name) (map g names)). split.
  - destruct (max_from_In num_gt (map g names) (g name)) as [-> | H];
      [now left | now right].
  - apply num_mul_int_giga.
Qed.

Lemma table_values_giga (tmpdir path : string) (recommendation : dict Z)
    (role : string) (bytes : Z) :
  In (path, recommendation) (dict_items (recommended_disk_space_bytes tmpdir))
  \/ In (path, recommendation) (dict_items recommended_disk_upgrade_bytes) ->
  In (role, bytes) (dict_items recommendation) ->
  exists k : Z, bytes = k * 10 ^ 9.
Proof.
  intros Hpath Hrole.
  assert (Hrec : recommendation = var_recommendation
                 \/ recommendation = small_recommendation
                 \/ recommendation = var_upgrade_recommendation).
  { destruct Hpath as [Hpath | Hpath].
    - rewrite install_table_items in Hpath.
      destruct (String.eqb "/var" tmpdir);
        [|destruct (String.eqb "/usr/local/bin" tmpdir)];
        simpl in Hpath;
        repeat match goal with
               | H : _ \/ _ |- _ => destruct H
               | H : (_, _) = (_, _) |- _ => injection H as _ <-
               | H : False |- _ => destruct H
               end; auto.
    - rewrite upgrade_table_items in Hpath. destruct Hpath as [Hpath | []].
      injection Hpath as _ <-. auto. }
  destruct Hrec as [-> | [-> | ->]]; simpl in Hrole;
    repeat match goal with
           | H : _ \/ _ |- _ => destruct H
           | H : (_, _) = (_, _) |- _ => injection H as _ <-
           | H : False |- _ => destruct H
           end;
    match goal with
    | |- exists k, ?b = _ => exists (b / 10 ^ 9); reflexivity
    end.
Qed.

(** C9. The override is turned into bytes by a multiplication by 10^9
    (integer multiplication for an [int], binary64 multiplication for a
    [float]): never by 2^30.  Every value of the two built-in tables is an
    integer multiple of 10^9.  The two figures of a failure message are the
    byte counts, as floats, divided by 10^9 and rendered by [{:.1f}], which
    writes a finite value rounded to the nearest tenth with one digit after
    the point. *)
Theorem decimal_gigabytes :
  (forall (d : dict (dict num)) (path : string) (group_names : list string),
      group_names <> [] ->
      exists gb : num,
        In gb (map (fun name => dict_get_default (dict_get_default d path []) name (PInt 0))
                   group_names)
        /\ config_bytes_for (CDict d) path group_names =
             Return match gb with
                    | PInt g => PInt (g * 1000000000)
                    | PFloat f => PFloat (PrimFloat.mul f 1000000000)
                    end)
  /\ (forall (tmpdir path : string) (recommendation : dict Z) (role : string) (bytes : Z),
        In (path, recommendation) (dict_items (recommended_disk_space_bytes tmpdir))
        \/ In (path, recommendation) (dict_items recommended_disk_upgrade_bytes) ->
        In (role, bytes) (dict_items recommendation) ->
        exists k : Z, bytes = k * 10 ^ 9)
  /\ (forall (float_repr : float -> string) (group_names : list string)
             (ansible_mounts : dict mount_record) (user_config : config_value)
             (context : option string) (path : string) (recommendation : dict Z)
             (r : dict field),
        check_path float_repr group_names ansible_mounts user_config context path
          recommendation = Return (Some r) ->
        exists (free config_bytes recommended_bytes : num) (free_f recommended_f : float),
          free_bytes path ansible_mounts = Return free
          /\ required_bytes group_names user_config (get_var_default context EmptyString)
               path recommendation = Return (config_bytes, recommended_bytes)
          /\ num_float free = Return free_f
          /\ num_float recommended_bytes = Return recommended_f
          /\ dict_get r "msg" =
               Some (FStr ("Available disk space in " ++ dquote ++ path ++ dquote
                             ++ " (" ++ format_1f (PrimFloat.div free_f 1000000000)
                             ++ " GB) is below minimum recommended ("
                             ++ format_1f (PrimFloat.div recommended_f 1000000000)
                             ++ " GB)")))
  /\ (forall (f : float) (s : bool) (m : positive) (e : Z),
        Prim2SF f = S754_finite s m e ->
        exists tenths : Z,
          format_1f f =
            (if s then "-" else EmptyString)
              ++ digits (tenths / 10) ++ "." ++ digits (tenths mod 10)
          /\ 0 <= tenths
          /\ String.length (digits (tenths mod 10)) = 1%nat
          /\ (0 <= e -> tenths = 10 * (Z.pos m * 2 ^ e))
          /\ (e < 0 ->
              Z.abs (2 * (10 * Z.pos m) - 2 * tenths * 2 ^ (- e)) <= 2 ^ (- e))).
Proof.
  split; [|split; [|split]].
  - exact config_bytes_for_gigabytes.
  - exact table_values_giga.
  - intros float_repr group_names ansible_mounts user_config context path
           recommendation r Hcheck.
    destruct (check_path_inv _ _ _ _ _ _ _ _ Hcheck)
      as (free & cb & req & free_f & req_f & Hfree & Hreq & _ & Hf & Hr & ->).
    exists free, cb, req, free_f, req_f. repeat split; assumption.
  - exact format_1f_finite.
Qed.

Lemma decimal_gigabytes_witness :
  config_bytes_for (CDict [("/var", [("nodes", PInt 50)])]) "/var" ["nodes"] =
    Return (PInt 50000000000)
  /\ (exists k : Z, 40000000000 = k * 10 ^ 9)
  /\ (exists r : dict field,
        check_path no_float_repr ["nodes"] (mounts_by_path sample_mounts) (CDict []) None
          "/var" var_recommendation = Return (Some r)
        /\ dict_get r "msg" =
             Some (FStr ("Available disk space in " ++ dquote ++ "/var" ++ dquote
                           ++ " (8.0 GB) is below minimum recommended (15.0 GB)")))
  /\ (exists tenths : Z,
        format_1f 8 = digits (tenths / 10) ++ "." ++ digits (tenths mod 10)
        /\ tenths = 80).
Proof.
  destruct decimal_gigabytes as (Hconv & Htable & Hmsg & Hfmt).
  split; [|split; [|split]].
  - destruct (Hconv [("/var", [("nodes", PInt 50)])] "/var" ["nodes"])
      as (gb & Hin & Hcfg); [discriminate|].
    destruct Hin as [<- | []]. exact Hcfg.
  - apply (Htable "/tmp" "/var" var_recommendation "masters" 40000000000).
    + left. left. reflexivity.
    + left. reflexivity.
  - eexists. split; [vm_compute; reflexivity|].
    destruct (Hmsg no_float_repr ["nodes"] (mounts_by_path sample_mounts) (CDict []) None
                "/var" var_recommendation _ eq_refl)
      as (free & cb & req & free_f & req_f & Hfree & Hreq & Hf & Hr & Hget).
    vm_compute in Hfree, Hreq. injection Hfree as <-. injection Hreq as <- <-.
    vm_compute in Hf, Hr. injection Hf as <-. injection Hr as <-.
    exact Hget.
  - destruct (Hfmt 8%float false 4503599627370496%positive (-49) eq_refl)
      as (tenths & Hfmt8 & Hpos & _ & _ & Hnear).
    exists tenths. split; [exact Hfmt8|].
    specialize (Hnear ltac:(lia)).
    change (2 ^ (- -49)) with 562949953421312 in Hnear. lia.
Defined.

(** ** A host without groups *)

Lemma required_bytes_no_groups (user_config : config_value) (context path : string)
    (recommendation : dict Z) :
  required_bytes [] user_config context path recommendation = Raise ValueError.
Proof. reflexivity. Qed.

Lemma check_paths_no_groups (float_repr : float -> string)
    (ansible_mounts : dict mount_record) (user_config : config_value)
    (context : option string) (path : string) (recommendation : dict Z)
    (rest : list (string * dict Z)) :
  check_paths float_repr [] ansible_mounts user_config context
    ((path, recommendation) :: rest) =
    match free_bytes path ansible_mounts with
    | Return _ => Raise ValueError
    | Raise e => Raise e
    end.
Proof.
  cbn [check_paths]. unfold check_path.
  destruct (free_bytes path ansible_mounts); reflexivity.
Qed.

Lemma is_active_nonempty (tmpdir : string) (super_is_active : bool)
    (group_names : option (list string)) :
  is_active tmpdir super_is_active group_names = true ->
  exists role roles, group_names = Some (role :: roles).
Proof.
  unfold is_active. intros H. apply andb_prop in H. destruct H as [_ H].
  apply has_disk_space_recommendation_iff in H. destruct H as (role & Hin & _).
  destruct group_names as [[|r rs]|]; simpl in Hin; try contradiction. eauto.
Qed.

(** C10. With an empty [group_names], [run] returns no verdict: it raises.
    When the override is accepted and ['/var'], the first path of the table,
    resolves in the mount table, the exception is the [ValueError] of [max]
    on an empty sequence.  A host that passed [is_active] has a non-empty
    [group_names]. *)
Theorem run_needs_group_names (tmpdir : string) (float_of_string : string -> option float)
    (float_repr : float -> string) (ansible_mounts : list mount_record)
    (override : option config_value) (context : option string) :
  (forall recommendation : dict Z,
      baseline_bytes recommendation [] = Raise ValueError)
  /\ (forall r : dict field,
        run tmpdir float_of_string float_repr [] ansible_mounts override context
          <> Return r)
  /\ (forall (user_config : config_value) (free : num),
        normalize_user_config float_of_string (get_var_default override (CDict [])) =
          Return user_config ->
        free_bytes "/var" (mounts_by_path ansible_mounts) = Return free ->
        run tmpdir float_of_string float_repr [] ansible_mounts override context =
          Raise ValueError)
  /\ (forall (super_is_active : bool) (group_names : option (list string)),
        is_active tmpdir super_is_active group_names = true ->
        exists role roles, group_names = Some (role :: roles)).
Proof.
  destruct (install_table_head tmpdir) as (recommendation & rest & Hitems).
  split; [|split; [|split]].
  - reflexivity.
  - intros r. unfold run. cbv zeta.
    destruct (normalize_user_config _ _) as [user_config|e]; [|discriminate].
    cbn [bind]. rewrite Hitems, check_paths_no_groups.
    destruct (free_bytes _ _); discriminate.
  - intros user_config free Hnorm Hfree. unfold run. cbv zeta.
    rewrite Hnorm. cbn [bind]. rewrite Hitems, check_paths_no_groups.
    now rewrite Hfree.
  - intros super_is_active group_names. apply is_active_nonempty.
Qed.

Lemma run_needs_group_names_witness :
  run "/tmp" no_float_of_string no_float_repr [] sample_mounts None (Some "upgrade") =
    Raise ValueError
  /\ (exists role roles, Some ["etcd"] = Some (role :: roles)).
Proof.
  destruct (run_needs_group_names "/tmp" no_float_of_string no_float_repr sample_mounts
              None (Some "upgrade")) as (_ & _ & Hraise & Hactive).
  split.
  - apply (Hraise (CDict []) (PInt 8000000000)); reflexivity.
  - apply (Hactive true (Some ["etcd"])). reflexivity.
Defined.

(** ** The documented sample host *)

Lemma free_bytes_from_entry (path : string) (ansible_mounts : dict mount_record)
    (free : num) :
  free_bytes path ansible_mounts = Return free ->
  exists (key : string) (entry : mount_record),
    dict_get ansible_mounts key = Some entry /\ size_available entry = Some free.
Proof.
  unfold free_bytes. cbv zeta. unfold dict_getitem.
  set (mp := find_mount_point 32 path ansible_mounts).
  destruct (dict_get ansible_mounts mp) as [entry|] eqn:Hget; [|discriminate].
  cbn [bind]. unfold get_size_available.
  destruct (size_available entry) as [n|] eqn:Hsize; [|discriminate].
  cbn [try_except]. intros H. injection H as <-.
  exists mp, entry. now split.
Qed.

Lemma sample_mounts_free (mounts : list mount_record) (path : string) (free : num) :
  mounts = sample_mounts \/ mounts = sample_mounts_float ->
  free_bytes path (mounts_by_path mounts) = Return free ->
  num_lt free (PInt 1000000000) = false.
Proof.
  intros Hm Hfree.
  destruct (free_bytes_from_entry _ _ _ Hfree) as (key & entry & Hget & Hsize).
  destruct Hm as [-> | ->];
    change (mounts_by_path sample_mounts)
      with [("/", mount_int "/" 50000000000); ("/var", mount_int "/var" 8000000000)]
      in Hget;
    change (mounts_by_path sample_mounts_float)
      with [("/", mount_float "/" 50000000000); ("/var", mount_float "/var" 8000000000)]
      in Hget;
    cbn [dict_get] in Hget;
    destruct (String.eqb "/" key);
    [ | destruct (String.eqb "/var" key); [|discriminate] | |
      destruct (String.eqb "/var" key); [|discriminate] ];
    injection Hget as <-; injection Hsize as <-; vm_compute; reflexivity.
Qed.

(** C8. Mounts ["/"] with 50e9 and ["/var"] with 8e9 bytes free (as integers
    or as floats), groups [["nodes"]], no override, a temporary directory
    other than ["/var"] that resolves in this mount table.  During an install
    ["/var"] requires 15e9 bytes and [run] returns the failure whose message
    names ["/var"], [8.0 GB] and [15.0 GB]; during an upgrade ["/var"]
    requires 5e9 bytes and [run] returns the empty record. *)
Theorem sample_node_install_and_upgrade (tmpdir : string)
    (float_of_string : string -> option float) (float_repr : float -> string)
    (mounts : list mount_record) :
  mounts = sample_mounts \/ mounts = sample_mounts_float ->
  tmpdir <> "/var" ->
  (exists free, free_bytes tmpdir (mounts_by_path mounts) = Return free) ->
  dict_get (recommended_disk_space_bytes tmpdir) "/var" = Some var_recommendation
  /\ required_bytes ["nodes"] (CDict []) EmptyString "/var" var_recommendation =
       Return (PInt 0, PInt 15000000000)
  /\ run tmpdir float_of_string float_repr ["nodes"] mounts None None =
       Return [("failed", FBool true); ("msg", FStr sample_failure_msg)]
  /\ contains "/var" sample_failure_msg = true
  /\ contains "8.0 GB" sample_failure_msg = true
  /\ contains "15.0 GB" sample_failure_msg = true
  /\ required_bytes ["nodes"] (CDict []) "upgrade" "/var" var_recommendation =
       Return (PInt 0, PInt 5000000000)
  /\ run tmpdir float_of_string float_repr ["nodes"] mounts None (Some "upgrade") =
       Return [].
Proof.
  intros Hmounts Htmp (free & Hfree).
  pose proof (sample_mounts_free mounts tmpdir free Hmounts Hfree) as Hlt.
  assert (Htable : dict_items (recommended_disk_space_bytes tmpdir) =
                   if String.eqb "/usr/local/bin" tmpdir then
                     [("/var", var_recommendation);
                      ("/usr/local/bin", small_recommendation)]
                   else
                     [("/var", var_recommendation);
                      ("/usr/local/bin", small_recommendation);
                      (tmpdir, small_recommendation)]).
  { rewrite install_table_items.
    destruct (String.eqb_spec "/var" tmpdir); [congruence | reflexivity]. }
  unfold dict_items in Htable.
  split; [|split; [|split; [|split; [|split; [|split; [|split]]]]]].
  - rewrite Htable. destruct (String.eqb "/usr/local/bin" tmpdir); reflexivity.
  - vm_compute. reflexivity.
  - unfold run. cbv zeta. cbn [get_var_default]. unfold dict_items. rewrite Htable.
    destruct Hmounts as [-> | ->];
      destruct (String.eqb "/usr/local/bin" tmpdir); vm_compute; reflexivity.
  - vm_compute. reflexivity.
  - vm_compute. reflexivity.
  - vm_compute. reflexivity.
  - vm_compute. reflexivity.
  - unfold run. cbv zeta. cbn [get_var_default]. unfold dict_items. rewrite Htable.
    change (normalize_user_config float_of_string (CDict [])) with (Return (CDict [])).
    cbn [bind].
    assert (Htwo : check_paths float_repr ["nodes"] (mounts_by_path mounts) (CDict [])
                     (Some "upgrade")
                     [("/var", var_recommendation);
                      ("/usr/local/bin", small_recommendation)] = Return []).
    { destruct Hmounts as [-> | ->]; vm_compute; reflexivity. }
    destruct (String.eqb "/usr/local/bin" tmpdir); [exact Htwo|].
    change [("/var", var_recommendation); ("/usr/local/bin", small_recommendation);
            (tmpdir, small_recommendation)]
      with ([("/var", var_recommendation); ("/usr/local/bin", small_recommendation)]
              ++ [(tmpdir, small_recommendation)])%list.
    assert (Hpre : Forall (path_passes ["nodes"] (mounts_by_path mounts) (CDict [])
                             (Some "upgrade"))
                     [("/var", var_recommendation);
                      ("/usr/local/bin", small_recommendation)]).
    { constructor; [|constructor; [|constructor]].
      - destruct Hmounts as [-> | ->].
        + exists (PInt 8000000000), (PInt 0), (PInt 5000000000).
          repeat split; vm_compute; reflexivity.
        + exists (PFloat 8000000000), (PInt 0), (PInt 5000000000).
          repeat split; vm_compute; reflexivity.
      - destruct Hmounts as [-> | ->].
        + exists (PInt 50000000000), (PInt 0), (PInt 1000000000).
          repeat split; vm_compute; reflexivity.
        + exists (PFloat 50000000000), (PInt 0), (PInt 1000000000).
          repeat split; vm_compute; reflexivity. }
    rewrite (check_paths_skip _ _ _ _ _ _ _ Hpre). cbn [check_paths].
    rewrite check_path_passes; [reflexivity|].
    exists free, (PInt 0), (PInt 1000000000). repeat split.
    + exact Hfree.
    + cbn [fst snd get_var_default].
      rewrite (required_bytes_upgrade_absent ["nodes"] (CDict []) tmpdir
                 small_recommendation) with (context := EmptyString).
      * reflexivity.
      * rewrite upgrade_table_get.
        destruct (String.eqb_spec "/var" tmpdir); [congruence | reflexivity].
    + exact Hlt.
Qed.

Lemma sample_node_install_and_upgrade_witness :
  run "/tmp" no_float_of_string no_float_repr ["nodes"] sample_mounts None None =
    Return [("failed", FBool true); ("msg", FStr sample_failure_msg)]
  /\ run "/tmp" no_float_of_string no_float_repr ["nodes"] sample_mounts None
       (Some "upgrade") = Return []
  /\ run "/var/tmp" no_float_of_string no_float_repr ["nodes"] sample_mounts_float None
       None = Return [("failed", FBool true); ("msg", FStr sample_failure_msg)]
  /\ run "/var/tmp" no_float_of_string no_float_repr ["nodes"] sample_mounts_float None
       (Some "upgrade") = Return [].
Proof.
  destruct (sample_node_install_and_upgrade "/tmp" no_float_of_string no_float_repr
              sample_mounts) as (_ & _ & Hinstall & _ & _ & _ & _ & Hupgrade).
  { left. reflexivity. }
  { discriminate. }
  { exists (PInt 50000000000). vm_compute. reflexivity. }
  destruct (sample_node_install_and_upgrade "/var/tmp" no_float_of_string no_float_repr
              sample_mounts_float) as (_ & _ & Hinstall' & _ & _ & _ & _ & Hupgrade').
  { right. reflexivity. }
  { discriminate. }
  { exists (PFloat 8000000000). vm_compute. reflexivity. }
  repeat split; assumption.
Defined.

(** ** The message of a failure during an upgrade *)

(** C1. Groups [["nodes"]], 8e9 bytes free under ["/var"], an override of
    50 GB for the nodes of ["/var"], upgrade context: the check fails, the
    override being the requirement.  The local variable [msg] holds the base
    message followed by the guidance, which names
    [openshift_check_min_host_disk_gb] and prints the override in bytes; the
    record [run] returns carries the base message alone. *)
Theorem upgrade_failure_drops_guidance (float_of_string : string -> option float)
    (float_repr : float -> string) :
  (forall (path context : string) (free config_bytes recommended_bytes : num)
          (r : dict field),
      failure float_repr path context free config_bytes recommended_bytes = Return r ->
      exists free_f recommended_f : float,
        dict_get r "msg" =
          Some (FStr (base_msg path (PrimFloat.div free_f 1000000000)
                        (PrimFloat.div recommended_f 1000000000))))
  /\ required_bytes ["nodes"] sample_override "upgrade" "/var" var_recommendation =
       Return (PInt 50000000000, PInt 50000000000)
  /\ run "/tmp" float_of_string float_repr ["nodes"] sample_mounts
       (Some sample_override) (Some "upgrade") =
       Return [("failed", FBool true); ("msg", FStr sample_override_msg)]
  /\ contains "openshift_check_min_host_disk_gb" sample_override_msg = false
  /\ contains "openshift_check_min_host_disk_gb=50000000000"
       (sample_override_msg ++ upgrade_warning float_repr (PInt 50000000000)) = true.
Proof.
  split.
  - intros path context free cb req r Hfail.
    destruct (failure_inv _ _ _ _ _ _ _ Hfail) as (free_f & req_f & _ & _ & ->).
    exists free_f, req_f. reflexivity.
  - repeat split; vm_compute; reflexivity.
Qed.

Lemma upgrade_failure_drops_guidance_witness :
  exists free_f recommended_f : float,
    dict_get [("failed", FBool true); ("msg", FStr sample_override_msg)] "msg" =
      Some (FStr (base_msg "/var" (PrimFloat.div free_f 1000000000)
                    (PrimFloat.div recommended_f 1000000000))).
Proof.
  apply (proj1 (upgrade_failure_drops_guidance no_float_of_string no_float_repr)
           "/var" "upgrade" (PInt 8000000000) (PInt 50000000000) (PInt 50000000000)).
  vm_compute. reflexivity.
Defined.

(** * Further properties of the check *)

(** ** Activation, concretely *)

(** X10. Whatever the temporary directory, a host is active exactly when
    the inherited predicate holds and one of its groups is [masters],
    [nodes] or [etcd]; a host whose [group_names] is undefined is inactive. *)
Theorem is_active_iff_listed_group (tmpdir : string) (super_is_active : bool)
    (group_names : option (list string)) :
  (is_active tmpdir super_is_active group_names = true <->
   super_is_active = true
   /\ exists role,
        In role (get_var_default group_names [])
        /\ In role ["masters"; "nodes"; "etcd"])
  /\ is_active tmpdir super_is_active None = false.
Proof.
  split.
  - unfold is_active. rewrite andb_true_iff, has_disk_space_recommendation_iff.
    split; intros (Hs & role & Hin & Hrole); (split; [exact Hs|]); exists role;
      (split; [exact Hin|]).
    + apply mentioned_iff in Hrole. now rewrite active_groups_eq in Hrole.
    + apply mentioned_iff. now rewrite active_groups_eq.
  - unfold is_active, has_disk_space_recommendation. rewrite active_groups_eq.
    apply andb_false_r.
Qed.

Lemma is_active_iff_listed_group_witness :
  is_active "/var/tmp" true (Some ["lb"; "nodes"]) = true.
Proof.
  apply (proj1 (is_active_iff_listed_group "/var/tmp" true (Some ["lb"; "nodes"]))).
  split; [reflexivity|]. exists "nodes". split; simpl; auto.
Defined.

(** ** Mount resolution, completely *)

Lemma find_mount_point_at (ansible_mounts : dict mount_record) (path : string) :
  exists k : nat,
    (k <= 32)%nat
    /\ (forall j, (j < k)%nat ->
          dict_mem (Nat.iter j dirname path) ansible_mounts = false)
    /\ free_bytes path ansible_mounts =
         match dict_get ansible_mounts (Nat.iter k dirname path) with
         | Some {| size_available := Some n |} => Return n
         | _ => Raise (OpenShiftCheckException
                         (unable_msg path (known_mounts ansible_mounts)))
         end.
Proof.
  destruct (find_mount_point_spec ansible_mounts 32 path)
    as (k & Hk & _ & Hbefore & Hat).
  exists k. split; [exact Hk|]. split; [exact Hbefore|].
  now apply free_bytes_at.
Qed.

(** X1. [free_bytes] returns [n] exactly when the nearest of the path and
    its first 32 ancestors that is a key of the mount table holds an entry
    with ['size_available'] equal to [n]: a nearer mount point shadows a
    farther one, and ancestors past the 32nd are never consulted. *)
Theorem free_bytes_nearest_mount (path : string) (ansible_mounts : dict mount_record)
    (n : num) :
  free_bytes path ansible_mounts = Return n <->
  exists (k : nat) (entry : mount_record),
    (k <= 32)%nat
    /\ (forall j, (j < k)%nat ->
          dict_mem (Nat.iter j dirname path) ansible_mounts = false)
    /\ dict_get ansible_mounts (Nat.iter k dirname path) = Some entry
    /\ size_available entry = Some n.
Proof.
  split.
  - intros Hfree.
    destruct (find_mount_point_at ansible_mounts path) as (k & Hk & Hbefore & Heq).
    rewrite Heq in Hfree.
    destruct (dict_get ansible_mounts (Nat.iter k dirname path)) as [entry|] eqn:Hget;
      [|discriminate].
    destruct entry as [mnt [size|]]; [|discriminate].
    injection Hfree as ->.
    exists k, {| mount := mnt; size_available := Some n |}. now repeat split.
  - intros (k & entry & Hk & Hbefore & Hget & Hsize).
    rewrite (free_bytes_at ansible_mounts path k Hk Hbefore).
    + rewrite Hget. destruct entry as [mnt size]. simpl in Hsize. now subst size.
    + intros _. exact (dict_mem_true _ _ _ Hget).
Qed.

Lemma free_bytes_nearest_mount_witness :
  free_bytes "/var/lib/docker"
    [("/", mount_int "/" 50000000000); ("/var", mount_int "/var" 8000000000)] =
    Return (PInt 8000000000).
Proof.
  apply free_bytes_nearest_mount.
  exists 2%nat, (mount_int "/var" 8000000000). repeat split.
  - lia.
  - intros j Hj.
    assert (E : j = 0%nat \/ j = 1%nat) by lia. destruct E as [-> | ->]; reflexivity.
Defined.

Lemma free_bytes_raise_inv (path : string) (ansible_mounts : dict mount_record)
    (e : exn) :
  free_bytes path ansible_mounts = Raise e ->
  e = OpenShiftCheckException (unable_msg path (known_mounts ansible_mounts)).
Proof.
  intros Hraise.
  destruct (find_mount_point_at ansible_mounts path) as (k & _ & _ & Heq).
  rewrite Heq in Hraise.
  destruct (dict_get ansible_mounts (Nat.iter k dirname path)) as [entry|].
  - destruct entry as [mnt [size|]]; [discriminate|]. now injection Hraise as <-.
  - now injection Hraise as <-.
Qed.

(** X2. The only exception [free_bytes] raises is [OpenShiftCheckException],
    with the message that lists the known mount points: the [KeyError] of a
    failed lookup never reaches the caller, whether the mount point or its
    ['size_available'] is what is missing. *)
Theorem free_bytes_raises_only_check_exception (path : string)
    (ansible_mounts : dict mount_record) (e : exn) :
  free_bytes path ansible_mounts = Raise e ->
  e <> KeyError
  /\ e = OpenShiftCheckException (unable_msg path (known_mounts ansible_mounts)).
Proof.
  intros Hraise. pose proof (free_bytes_raise_inv _ _ _ Hraise) as ->.
  split; [discriminate | reflexivity].
Qed.

Lemma free_bytes_raises_only_check_exception_witness :
  exists e : exn,
    free_bytes "/var/lib" [("/var", {| mount := "/var"; size_available := None |})] =
      Raise e
    /\ e = OpenShiftCheckException
             (unable_msg "/var/lib"
                (known_mounts [("/var", {| mount := "/var"; size_available := None |})])).
Proof.
  eexists. split; [reflexivity|].
  apply (proj2 (free_bytes_raises_only_check_exception "/var/lib"
                  [("/var", {| mount := "/var"; size_available := None |})] _
                  eq_refl)).
Defined.

(** ** The mount list as a dictionary *)

Lemma dict_get_set {V : Type} (d : dict V) (k : string) (v : V) (k' : string) :
  dict_get (dict_set d k v) k' = if String.eqb k k' then Some v else dict_get d k'.
Proof.
  induction d as [|[k0 v0] d IH]; simpl.
  - reflexivity.
  - destruct (String.eqb_spec k0 k) as [-> | Hne]; simpl.
    + destruct (String.eqb k k'); reflexivity.
    + rewrite IH. destruct (String.eqb_spec k0 k') as [-> | Hne'].
      * destruct (String.eqb_spec k k'); [congruence | reflexivity].
      * reflexivity.
Qed.

Lemma dict_keys_set {V : Type} (d : dict V) (k : string) (v : V) :
  dict_keys (dict_set d k v) =
    if dict_mem k d then dict_keys d else (dict_keys d ++ [k])%list.
Proof.
  unfold dict_mem, dict_keys. induction d as [|[k0 v0] d IH]; simpl.
  - reflexivity.
  - destruct (String.eqb_spec k0 k) as [-> | Hne]; simpl.
    + reflexivity.
    + rewrite IH. destruct (dict_get d k); reflexivity.
Qed.

Lemma dict_mem_keys {V : Type} (d : dict V) (k : string) :
  dict_mem k d = true <-> In k (dict_keys d).
Proof.
  unfold dict_mem. induction d as [|[k0 v0] d IH]; simpl.
  - split; [discriminate | intros []].
  - destruct (String.eqb_spec k0 k) as [-> | Hne].
    + split; auto.
    + rewrite IH. split; [now right | intros [E | H]; [congruence | exact H]].
Qed.

Lemma dict_set_NoDup {V : Type} (d : dict V) (k : string) (v : V) :
  NoDup (dict_keys d) -> NoDup (dict_keys (dict_set d k v)).
Proof.
  intros Hnd. rewrite dict_keys_set.
  destruct (dict_mem k d) eqn:E; [exact Hnd|].
  apply NoDup_app; [exact Hnd | repeat constructor; intros [] |].
  intros x Hx [<- | []]. apply dict_mem_keys in Hx. congruence.
Qed.

Lemma find_append {A : Type} (f : A -> bool) (l1 l2 : list A) :
  find f (l1 ++ l2)%list =
    match find f l1 with
    | Some x => Some x
    | None => find f l2
    end.
Proof.
  induction l1 as [|x l1 IH]; simpl; [reflexivity|].
  destruct (f x); [reflexivity | exact IH].
Qed.

Lemma fold_dict_set_get (ms : list mount_record) : forall (d : dict mount_record)
    (key : string),
  dict_get (fold_left (fun d kv => dict_set d (fst kv) (snd kv))
              (map (fun m => (mount m, m)) ms) d) key =
    match find (fun m => String.eqb (mount m) key) (rev ms) with
    | Some m => Some m
    | None => dict_get d key
    end.
Proof.
  induction ms as [|m ms IH]; intros d key; simpl.
  - reflexivity.
  - rewrite IH, find_append.
    destruct (find (fun m0 => String.eqb (mount m0) key) (rev ms)); [reflexivity|].
    simpl. rewrite dict_get_set. destruct (String.eqb (mount m) key); reflexivity.
Qed.

Lemma fold_dict_set_NoDup (ms : list mount_record) : forall d : dict mount_record,
  NoDup (dict_keys d) ->
  NoDup (dict_keys (fold_left (fun d kv => dict_set d (fst kv) (snd kv))
                      (map (fun m => (mount m, m)) ms) d)).
Proof.
  induction ms as [|m ms IH]; intros d Hnd; simpl; [exact Hnd|].
  apply IH. now apply dict_set_NoDup.
Qed.

(** X4. Line 59 keeps one record per mount path, the last of the list: a
    lookup by path returns the last record with that ['mount'] and nothing
    for a path no record has, every stored record sits under its own path,
    and no path is a key twice (so the diagnostic of [free_bytes] names each
    mount point once). *)
Theorem mounts_by_path_last_wins (ansible_mounts : list mount_record) :
  (forall key : string,
      dict_get (mounts_by_path ansible_mounts) key = last_mount key ansible_mounts)
  /\ (forall (key : string) (m : mount_record),
        dict_get (mounts_by_path ansible_mounts) key = Some m ->
        mount m = key /\ In m ansible_mounts)
  /\ (forall key : string,
        In key (dict_keys (mounts_by_path ansible_mounts)) <->
        exists m, In m ansible_mounts /\ mount m = key)
  /\ NoDup (dict_keys (mounts_by_path ansible_mounts)).
Proof.
  assert (Hget : forall key,
             dict_get (mounts_by_path ansible_mounts) key =
             last_mount key ansible_mounts).
  { intros key. unfold mounts_by_path, dict_of_list, last_mount.
    rewrite fold_dict_set_get.
    destruct (find _ (rev ansible_mounts)); reflexivity. }
  assert (Hsome : forall key m,
             dict_get (mounts_by_path ansible_mounts) key = Some m ->
             mount m = key /\ In m ansible_mounts).
  { intros key m H. rewrite Hget in H. unfold last_mount in H.
    apply find_some in H. destruct H as [Hin Heq].
    split; [now apply String.eqb_eq | now apply in_rev]. }
  split; [exact Hget|]. split; [exact Hsome|]. split.
  - intros key. rewrite <- dict_mem_keys. unfold dict_mem. split.
    + destruct (dict_get (mounts_by_path ansible_mounts) key) as [m|] eqn:E;
        [|discriminate].
      intros _. exists m. destruct (Hsome key m E). now split.
    + intros (m & Hin & Hkey). rewrite Hget. unfold last_mount.
      destruct (find (fun m0 => String.eqb (mount m0) key) (rev ansible_mounts))
        eqn:E; [reflexivity|].
      exfalso.
      assert (Hf : String.eqb (mount m) key = false).
      { apply (find_none _ _ E m). now apply -> in_rev. }
      subst key. rewrite String.eqb_refl in Hf. discriminate.
  - unfold mounts_by_path, dict_of_list. apply fold_dict_set_NoDup. constructor.
Qed.

Lemma mounts_by_path_last_wins_witness :
  mount (mount_int "/var" 7) = "/var"
  /\ In (mount_int "/var" 7)
       [mount_int "/var" 9; mount_int "/" 5; mount_int "/var" 7].
Proof.
  apply (proj1 (proj2 (mounts_by_path_last_wins
                         [mount_int "/var" 9; mount_int "/" 5; mount_int "/var" 7]))).
  reflexivity.
Defined.

(** ** What a verdict of [run] means *)

Lemma check_path_none_inv (float_repr : float -> string) (group_names : list string)
    (ansible_mounts : dict mount_record) (user_config : config_value)
    (context : option string) (path : string) (recommendation : dict Z) :
  check_path float_repr group_names ansible_mounts user_config context path
    recommendation = Return None ->
  path_passes group_names ansible_mounts user_config context (path, recommendation).
Proof.
  unfold check_path, path_passes. cbn [fst snd]. intros H.
  destruct (free_bytes path ansible_mounts) as [free|e]; [|discriminate].
  cbn [bind] in H.
  destruct (required_bytes _ _ _ _ _) as [[cb req]|e]; [|discriminate].
  cbn [bind] in H.
  destruct (num_lt free req) eqn:Hlt.
  - destruct (failure _ _ _ _ _ _); discriminate.
  - exists free, cb, req. now repeat split.
Qed.

(** The loop returns the empty record when every entry passes, and otherwise
    the failure record of the first entry with too little free space. *)
Lemma check_paths_inv (float_repr : float -> string) (group_names : list string)
    (ansible_mounts : dict mount_record) (user_config : config_value)
    (context : option string) (items : list (string * dict Z)) (r : dict field) :
  check_paths float_repr group_names ansible_mounts user_config context items =
    Return r ->
  (r = []
   /\ Forall (path_passes group_names ansible_mounts user_config context) items)
  \/ (exists (pre post : list (string * dict Z)) (path : string)
             (recommendation : dict Z) (free config_bytes recommended_bytes : num)
             (free_f recommended_f : float),
        items = (pre ++ (path, recommendation) :: post)%list
        /\ Forall (path_passes group_names ansible_mounts user_config context) pre
        /\ free_bytes path ansible_mounts = Return free
        /\ required_bytes group_names user_config (get_var_default context EmptyString)
             path recommendation = Return (config_bytes, recommended_bytes)
        /\ num_lt free recommended_bytes = true
        /\ num_float free = Return free_f
        /\ num_float recommended_bytes = Return recommended_f
        /\ r = [("failed", FBool true);
                ("msg", FStr (base_msg path (PrimFloat.div free_f 1000000000)
                                (PrimFloat.div recommended_f 1000000000)))]).
Proof.
  induction items as [|[path recommendation] items IH]; cbn [check_paths].
  - intros H. injection H as <-. left. split; [reflexivity | constructor].
  - destruct (check_path float_repr group_names ansible_mounts user_config context
                path recommendation) as [[failed|]|e] eqn:Hcheck;
      cbn [bind]; [| |discriminate].
    + intros H. injection H as <-. right.
      destruct (check_path_inv _ _ _ _ _ _ _ _ Hcheck)
        as (free & cb & req & free_f & req_f & Hfree & Hreq & Hlt & Hf & Hr & ->).
      exists [], items, path, recommendation, free, cb, req, free_f, req_f.
      repeat split; try assumption. constructor.
    + intros H. apply check_path_none_inv in Hcheck.
      destruct (IH H) as [[-> Hall] | Hfail].
      * left. split; [reflexivity | now constructor].
      * right.
        destruct Hfail as (pre & post & p & rec & free & cb & req & free_f & req_f
                           & -> & Hpre & Hrest).
        exists ((path, recommendation) :: pre), post, p, rec, free, cb, req,
               free_f, req_f.
        split; [reflexivity|]. split; [now constructor | exact Hrest].
Qed.

(** X6. A record returned by [run] is either empty, and then every path of
    the table resolved and had at least the space it requires, or it is
    [{'failed': True, 'msg': ...}] for the first path of the table with less
    free space than required, the earlier paths all passing: [run] gives no
    pass without having checked every path, and no failure for a path with
    enough space. *)
Theorem run_verdict_sound (tmpdir : string) (float_of_string : string -> option float)
    (float_repr : float -> string) (group_names : list string)
    (ansible_mounts : list mount_record) (override : option config_value)
    (context : option string) (r : dict field) :
  run tmpdir float_of_string float_repr group_names ansible_mounts override context =
    Return r ->
  exists user_config : config_value,
    normalize_user_config float_of_string (get_var_default override (CDict [])) =
      Return user_config
    /\ ((r = []
         /\ Forall (path_passes group_names (mounts_by_path ansible_mounts)
                      user_config context)
                   (dict_items (recommended_disk_space_bytes tmpdir)))
        \/ (exists (pre post : list (string * dict Z)) (path : string)
                   (recommendation : dict Z) (free config_bytes recommended_bytes : num)
                   (free_f recommended_f : float),
              dict_items (recommended_disk_space_bytes tmpdir) =
                (pre ++ (path, recommendation) :: post)%list
              /\ Forall (path_passes group_names (mounts_by_path ansible_mounts)
                           user_config context) pre
              /\ free_bytes path (mounts_by_path ansible_mounts) = Return free
              /\ required_bytes group_names user_config
                   (get_var_default context EmptyString) path recommendation =
                   Return (config_bytes, recommended_bytes)
              /\ num_lt free recommended_bytes = true
              /\ num_float free = Return free_f
              /\ num_float recommended_bytes = Return recommended_f
              /\ r = [("failed", FBool true);
                      ("msg", FStr (base_msg path (PrimFloat.div free_f 1000000000)
                                      (PrimFloat.div recommended_f 1000000000)))])).
Proof.
  unfold run. cbv zeta. intros H.
  destruct (normalize_user_config float_of_string
              (get_var_default override (CDict []))) as [user_config|e];
    [|discriminate].
  cbn [bind] in H. exists user_config. split; [reflexivity|].
  exact (check_paths_inv float_repr _ _ _ _ _ _ H).
Qed.

Lemma run_verdict_sound_witness :
  Forall (path_passes ["nodes"] (mounts_by_path sample_mounts) (CDict [])
            (Some "upgrade"))
         (dict_items (recommended_disk_space_bytes "/tmp")).
Proof.
  destruct (run_verdict_sound "/tmp" no_float_of_string no_float_repr ["nodes"]
              sample_mounts None (Some "upgrade") [])
    as (user_config & Hnorm & [[_ Hpass] | Hfail]).
  - vm_compute. reflexivity.
  - injection Hnorm as <-. exact Hpass.
  - exfalso.
    destruct Hfail as (pre & post & path & rec & free & cb & req & free_f & req_f
                       & _ & _ & _ & _ & _ & _ & _ & Hr).
    discriminate Hr.
Defined.

(** ** The exceptions of [run] *)







(** ** Other shapes of the override *)

(** X5. A string [float()] parses is an override like the number it denotes;
    any other string makes [run] raise [ValueError] before a path is looked
    at, since the handler only catches [TypeError]; [None] passes the handler
    and then fails with [AttributeError] at [user_config.get], once the first
    path has resolved for a host with a group. *)
Theorem string_and_none_override (tmpdir : string)
    (float_of_string : string -> option float) (float_repr : float -> string)
    (group_names : list string) (ansible_mounts : list mount_record)
    (context : option string) :
  (forall (s : string) (f : float),
      float_of_string s = Some f ->
      run tmpdir float_of_string float_repr group_names ansible_mounts
        (Some (CStr s)) context =
      run tmpdir float_of_string float_repr group_names ansible_mounts
        (Some (CNum (PFloat f))) context)
  /\ (forall s : string,
        float_of_string s = None ->
        run tmpdir float_of_string float_repr group_names ansible_mounts
          (Some (CStr s)) context = Raise ValueError)
  /\ (forall free : num,
        group_names <> [] ->
        free_bytes "/var" (mounts_by_path ansible_mounts) = Return free ->
        run tmpdir float_of_string float_repr group_names ansible_mounts
          (Some CNone) context = Raise AttributeError).
Proof.
  split; [|split].
  - intros s f Hs. unfold run, normalize_user_config, py_float. cbv zeta.
    cbn [get_var_default num_float]. now rewrite Hs.
  - intros s Hs. unfold run, normalize_user_config, py_float. cbv zeta.
    cbn [get_var_default]. now rewrite Hs.
  - intros free Hne Hfree. unfold run. cbv zeta. cbn [get_var_default].
    change (normalize_user_config float_of_string CNone) with (Return CNone).
    cbn [bind].
    destruct (install_table_head tmpdir) as (recommendation & rest & ->).
    cbn [check_paths]. unfold check_path. rewrite Hfree. cbn [bind].
    unfold required_bytes, baseline_bytes.
    destruct (py_max_Z_spec (fun name => dict_get_default recommendation name 0)
                group_names Hne) as (b & -> & _).
    reflexivity.
Qed.

Lemma string_and_none_override_witness :
  run "/tmp" (fun s => if String.eqb s "3" then Some 3%float else None) no_float_repr
    ["masters"] sample_mounts (Some (CStr "3")) None =
  run "/tmp" (fun s => if String.eqb s "3" then Some 3%float else None) no_float_repr
    ["masters"] sample_mounts (Some (CNum (PFloat 3))) None
  /\ run "/tmp" no_float_of_string no_float_repr ["masters"] sample_mounts
       (Some (CStr "plenty")) None = Raise ValueError
  /\ run "/tmp" no_float_of_string no_float_repr ["masters"] sample_mounts
       (Some CNone) None = Raise AttributeError.
Proof.
  split; [|split].
  - apply (proj1 (string_and_none_override "/tmp"
                    (fun s => if String.eqb s "3" then Some 3%float else None)
                    no_float_repr ["masters"] sample_mounts None)).
    reflexivity.
  - apply (proj1 (proj2 (string_and_none_override "/tmp" no_float_of_string
                           no_float_repr ["masters"] sample_mounts None))).
    reflexivity.
  - apply (proj2 (proj2 (string_and_none_override "/tmp" no_float_of_string
                           no_float_repr ["masters"] sample_mounts None))
             (PInt 8000000000)).
    + discriminate.
    + reflexivity.
Defined.

Lemma config_bytes_for_silent (d : dict (dict num)) (path : string)
    (group_names : list string) :
  group_names <> [] ->
  (forall name, In name group_names ->
     dict_get_default (dict_get_default d path []) name (PInt 0) = PInt 0) ->
  config_bytes_for (CDict d) path group_names = Return (PInt 0).
Proof.
  intros Hne Hzero. unfold config_bytes_for, config_get. cbn [bind].
  rewrite (py_max_const num_gt _ group_names (PInt 0) Hne Hzero). reflexivity.
Qed.

(** X8. An override that gives none of the host's groups a value on a path
    (the path is missing, the groups are missing, or the values are 0)
    leaves the requirement of that path as it is without any override, in
    every context: a zero is not a way to switch a path off. *)
Theorem override_silent_for_host (group_names : list string) (d : dict (dict num))
    (context path : string) (recommendation : dict Z) :
  group_names <> [] ->
  (forall name, In name group_names ->
     dict_get_default (dict_get_default d path []) name (PInt 0) = PInt 0) ->
  required_bytes group_names (CDict d) context path recommendation =
    required_bytes group_names (CDict []) context path recommendation.
Proof.
  intros Hne Hzero. unfold required_bytes.
  rewrite (config_bytes_for_silent d path group_names Hne Hzero).
  rewrite (config_bytes_for_silent [] path group_names Hne) by reflexivity.
  reflexivity.
Qed.

Lemma override_silent_for_host_witness :
  required_bytes ["nodes"]
    (CDict [("/var", [("masters", PInt 100); ("nodes", PInt 0)]);
            ("/opt", [("nodes", PInt 100)])])
    EmptyString "/var" var_recommendation =
  required_bytes ["nodes"] (CDict []) EmptyString "/var" var_recommendation.
Proof.
  apply override_silent_for_host.
  - discriminate.
  - intros name [<- | []]. reflexivity.
Defined.

(** ** Install and upgrade compared *)

Lemma Z_float_compare_Gt_mono (a b : Z) (g : float) :
  a <= b -> Z_float_compare a g = Some Gt -> Z_float_compare b g = Some Gt.
Proof.
  unfold Z_float_compare. intros Hab.
  destruct (Prim2SF g) as [s|s| |s m e]; [| destruct s; congruence | congruence |].
  - intros H. injection H as H. f_equal. apply Z.compare_gt_iff in H.
    apply Z.compare_gt_iff. lia.
  - destruct (Z.leb_spec 0 e) as [He | He]; intros H; injection H as H; f_equal;
      apply Z.compare_gt_iff in H; apply Z.compare_gt_iff.
    + lia.
    + assert (0 < 2 ^ (- e)) by (apply Z.pow_pos_nonneg; lia).
      nia.
Qed.

(** Raising an integer bound keeps a number below it. *)
Lemma num_lt_PInt_mono (x : num) (a b : Z) :
  a <= b -> num_lt x (PInt a) = true -> num_lt x (PInt b) = true.
Proof.
  intros Hab. destruct x as [z|f]; simpl.
  - rewrite !Z.ltb_lt. lia.
  - destruct (Z_float_compare a f) as [[| |]|] eqn:E; try discriminate.
    intros _. now rewrite (Z_float_compare_Gt_mono a b f Hab E).
Qed.

Lemma var_upgrade_le_install (name : string) :
  dict_get_default var_upgrade_recommendation name 0
    <= dict_get_default var_recommendation name 0.
Proof.
  unfold dict_get_default, var_upgrade_recommendation, var_recommendation.
  cbn [dict_get].
  destruct (String.eqb "masters" name); [lia|].
  destruct (String.eqb "nodes" name); [lia|].
  destruct (String.eqb "etcd" name); lia.
Qed.

Lemma is_max_over_mono (f g : string -> Z) (names : list string) (m m' : Z) :
  (forall name, f name <= g name) ->
  is_max_over f names m -> is_max_over g names m' -> m <= m'.
Proof.
  intros Hle [(n & Hn & <-) _] [_ Hall].
  specialize (Hall n Hn). specialize (Hle n). lia.
Qed.

(** Outside an upgrade, a computed requirement is the override or the
    baseline. *)
Lemma required_bytes_install_inv (group_names : list string) (user_config : config_value)
    (context path : string) (recommendation : dict Z)
    (config_bytes recommended_bytes : num) :
  String.eqb context "upgrade" = false ->
  required_bytes group_names user_config context path recommendation =
    Return (config_bytes, recommended_bytes) ->
  group_names <> []
  /\ config_bytes_for user_config path group_names = Return config_bytes
  /\ exists m,
       is_max_over (fun name => dict_get_default recommendation name 0) group_names m
       /\ recommended_bytes = num_or config_bytes (PInt m).
Proof.
  intros Hctx Hreq.
  assert (Hne : group_names <> []).
  { intros ->. rewrite required_bytes_no_groups in Hreq. discriminate. }
  split; [exact Hne|].
  destruct (py_max_Z_spec (fun name => dict_get_default recommendation name 0)
              group_names Hne) as (m & Hm & Hmax).
  unfold required_bytes, baseline_bytes in Hreq. rewrite Hm in Hreq.
  cbn [bind] in Hreq.
  destruct (config_bytes_for user_config path group_names) as [cb|e];
    [|discriminate].
  cbn [bind] in Hreq. unfold upgrade_bytes in Hreq. rewrite Hctx in Hreq.
  cbn [bind] in Hreq. injection Hreq as <- <-.
  split; [reflexivity|]. exists m. now split.
Qed.

Lemma path_passes_upgrade (group_names : list string)
    (ansible_mounts : dict mount_record) (user_config : config_value)
    (context : option string) (path : string) (recommendation : dict Z) :
  String.eqb (get_var_default context EmptyString) "upgrade" = false ->
  (path = "/var" -> recommendation = var_recommendation) ->
  path_passes group_names ansible_mounts user_config context (path, recommendation) ->
  path_passes group_names ansible_mounts user_config (Some "upgrade")
    (path, recommendation).
Proof.
  intros Hctx Hvar (free & cb & req & Hfree & Hreq & Hlt). cbn [fst snd] in *.
  destruct (required_bytes_install_inv _ _ _ _ _ _ _ Hctx Hreq)
    as (Hne & Hcfg & m & Hmax & ->).
  destruct (String.eqb_spec "/var" path) as [<- | Hpath].
  - rewrite (Hvar eq_refl) in *.
    destruct (num_truthy cb) eqn:Htruthy.
    + exists free, cb, cb. cbn [fst snd get_var_default].
      split; [exact Hfree|]. split.
      * unfold required_bytes, baseline_bytes.
        destruct (py_max_Z_spec
                    (fun name => dict_get_default var_recommendation name 0)
                    group_names Hne) as (b & -> & _).
        cbn [bind]. rewrite Hcfg. cbn [bind]. unfold upgrade_bytes, num_or.
        rewrite Htruthy. reflexivity.
      * unfold num_or in Hlt. now rewrite Htruthy in Hlt.
    + destruct (py_max_Z_spec
                  (fun name => dict_get_default var_upgrade_recommendation name 0)
                  group_names Hne) as (u & Hu & Humax).
      exists free, cb, (PInt u). cbn [fst snd get_var_default].
      split; [exact Hfree|]. split.
      * unfold required_bytes, baseline_bytes.
        destruct (py_max_Z_spec
                    (fun name => dict_get_default var_recommendation name 0)
                    group_names Hne) as (b & -> & _).
        cbn [bind]. rewrite Hcfg. cbn [bind]. unfold upgrade_bytes.
        change (dict_get_default recommended_disk_upgrade_bytes "/var" [])
          with var_upgrade_recommendation.
        cbv zeta. change (String.eqb "upgrade" "upgrade") with true.
        change (dict_truthy var_upgrade_recommendation) with true. cbv iota.
        rewrite Htruthy, Hu. reflexivity.
      * unfold num_or in Hlt. rewrite Htruthy in Hlt.
        destruct (num_lt free (PInt u)) eqn:Hlt'; [|reflexivity].
        rewrite (num_lt_PInt_mono free u m) in Hlt; [discriminate| |exact Hlt'].
        exact (is_max_over_mono _ _ _ _ _ var_upgrade_le_install Humax Hmax).
  - exists free, cb, (num_or cb (PInt m)). cbn [fst snd get_var_default].
    split; [exact Hfree|]. split; [|exact Hlt].
    rewrite (required_bytes_upgrade_absent group_names user_config path recommendation)
      with (context := get_var_default context EmptyString).
    + exact Hreq.
    + rewrite upgrade_table_get.
      destruct (String.eqb_spec "/var" path); [congruence | reflexivity].
Qed.

(** X9. When the temporary directory is not ["/var"], a host that passes
    the check outside an upgrade passes it during an upgrade with the same
    groups, mounts and override: the upgrade minima of ["/var"] never exceed
    its install minima, and every other requirement is the same. *)
Theorem install_pass_implies_upgrade_pass (tmpdir : string)
    (float_of_string : string -> option float) (float_repr : float -> string)
    (group_names : list string) (ansible_mounts : list mount_record)
    (override : option config_value) (context : option string) :
  tmpdir <> "/var" ->
  String.eqb (get_var_default context EmptyString) "upgrade" = false ->
  run tmpdir float_of_string float_repr group_names ansible_mounts override context =
    Return [] ->
  run tmpdir float_of_string float_repr group_names ansible_mounts override
    (Some "upgrade") = Return [].
Proof.
  intros Htmp Hctx Hrun. unfold run in *. cbv zeta in *.
  destruct (normalize_user_config float_of_string
              (get_var_default override (CDict []))) as [user_config|e];
    [|discriminate].
  cbn [bind] in *.
  destruct (check_paths_inv float_repr _ _ _ _ _ _ Hrun) as [[_ Hall] | Hfail].
  - rewrite <- (app_nil_r (dict_items (recommended_disk_space_bytes tmpdir))).
    rewrite check_paths_skip; [reflexivity|].
    rewrite install_table_items in *.
    destruct (String.eqb_spec "/var" tmpdir); [congruence|].
    assert (Hstep : forall path recommendation,
               (path = "/var" -> recommendation = var_recommendation) ->
               path_passes group_names (mounts_by_path ansible_mounts) user_config
                 context (path, recommendation) ->
               path_passes group_names (mounts_by_path ansible_mounts) user_config
                 (Some "upgrade") (path, recommendation)).
    { intros path recommendation. now apply path_passes_upgrade. }
    destruct (String.eqb_spec "/usr/local/bin" tmpdir).
    + inversion Hall as [|? ? H1 Hall1]; subst.
      inversion Hall1 as [|? ? H2 Hall2]; subst.
      repeat constructor; apply Hstep; try assumption; try reflexivity;
        discriminate.
    + inversion Hall as [|? ? H1 Hall1]; subst.
      inversion Hall1 as [|? ? H2 Hall2]; subst.
      inversion Hall2 as [|? ? H3 Hall3]; subst.
      repeat constructor; apply Hstep; try assumption; try reflexivity;
        try discriminate.
      intros E. congruence.
  - destruct Hfail as (pre & post & path & rec & free & cb & req & free_f & req_f
                       & _ & _ & _ & _ & _ & _ & _ & Hr).
    discriminate Hr.
Qed.

Lemma install_pass_implies_upgrade_pass_witness :
  run "/tmp" no_float_of_string no_float_repr ["etcd"]
    [mount_int "/" 30000000000] None (Some "upgrade") = Return [].
Proof.
  apply (install_pass_implies_upgrade_pass "/tmp" no_float_of_string no_float_repr
           ["etcd"] [mount_int "/" 30000000000] None None).
  - discriminate.
  - reflexivity.
  - vm_compute. reflexivity.
Defined.

(** ** Paths under a mounted root *)

Lemma rfind_lower (c : ascii) (s : string) : -1 <= rfind c s.
Proof.
  induction s as [|a s IH]; simpl; [lia|].
  destruct (Z.leb_spec 0 (rfind c s)); [lia|].
  destruct (Ascii.eqb a c); lia.
Qed.

Lemma rfind_found_iff (c : ascii) (s : string) :
  0 <= rfind c s <-> (0 < count_char c s)%nat.
Proof.
  induction s as [|a s IH]; [simpl; lia|].
  cbn [rfind count_char]. cbv zeta.
  destruct (Z.leb_spec 0 (rfind c s)) as [H | H].
  - pose proof (proj1 IH H). split; intros; lia.
  - assert (Hzero : count_char c s = 0%nat).
    { destruct (count_char c s) eqn:E; [reflexivity|].
      assert (0 <= rfind c s) by (apply IH; lia). lia. }
    rewrite Hzero. destruct (Ascii.eqb a c); split; intros; lia.
Qed.

Lemma substring_0_0 (s : string) : substring 0 0 s = EmptyString.
Proof. destruct s; reflexivity. Qed.

Lemma dir_head_cons (a : ascii) (s : string) :
  dir_head (String a s) =
    if 0 <=? rfind "/"%char s then String a (dir_head s)
    else if Ascii.eqb a "/"%char then "/" else EmptyString.
Proof.
  unfold dir_head. cbn [rfind]. cbv zeta.
  destruct (Z.leb_spec 0 (rfind "/"%char s)) as [H | H].
  - replace (rfind "/"%char s + 1 + 1) with (Z.succ (rfind "/"%char s + 1)) by lia.
    rewrite Z2Nat.inj_succ by lia. reflexivity.
  - destruct (Ascii.eqb_spec a "/"%char) as [-> | Hne].
    + change (Z.to_nat (0 + 1)) with 1%nat. cbn [substring].
      now rewrite substring_0_0.
    + reflexivity.
Qed.

Lemma dirname_dir_head (p : string) :
  dirname p =
    if str_truthy (dir_head p) && negb (all_char "/"%char (dir_head p))
    then rstrip "/"%char (dir_head p)
    else dir_head p.
Proof. reflexivity. Qed.







(** ** Paths that begin with two slashes *)

Lemma rstrip_not_all (c : ascii) (s : string) :
  all_char c s = false -> rstrip c s <> EmptyString.
Proof.
  induction s as [|b s IH]; [discriminate|].
  cbn [all_char rstrip]. intros Hall.
  destruct (all_char c s).
  - rewrite andb_true_r in Hall. rewrite Hall.
    destruct (rstrip c s); discriminate.
  - specialize (IH eq_refl). destruct (rstrip c s); [congruence | discriminate].
Qed.

Lemma rstrip_cons_not_all (c a : ascii) (s : string) :
  all_char c s = false -> rstrip c (String a s) = String a (rstrip c s).
Proof.
  intros Hall. pose proof (rstrip_not_all c s Hall) as Hne.
  cbn [rstrip]. destruct (rstrip c s); [congruence | reflexivity].
Qed.

Lemma dirname_double_slash (p : string) :
  double_slash p -> double_slash (dirname p).
Proof.
  intros (r & ->). rewrite dirname_dir_head.
  assert (Hhead : exists x, dir_head (String "/"%char (String "/"%char r)) =
                            String "/"%char (String "/"%char x)).
  { rewrite dir_head_cons.
    assert (Hsep : 0 <= rfind "/"%char (String "/"%char r)).
    { apply rfind_found_iff. simpl. lia. }
    destruct (Z.leb_spec 0 (rfind "/"%char (String "/"%char r))); [|lia].
    rewrite dir_head_cons.
    destruct (0 <=? rfind "/"%char r); eexists; reflexivity. }
  destruct Hhead as (x & ->).
  destruct (all_char "/"%char (String "/"%char (String "/"%char x))) eqn:Hall.
  - rewrite andb_false_r. now exists x.
  - cbn [str_truthy negb andb].
    assert (Hx : all_char "/"%char x = false) by exact Hall.
    rewrite rstrip_cons_not_all by exact Hall.
    rewrite rstrip_cons_not_all by exact Hx.
    now exists (rstrip "/"%char x).
Qed.

Lemma iter_dirname_double_slash (k : nat) (p : string) :
  double_slash p -> double_slash (Nat.iter k dirname p).
Proof.
  intros Hp. induction k as [|k IH]; [exact Hp|].
  cbn [Nat.iter nat_rect]. now apply dirname_double_slash.
Qed.

(** X11. [os.path.dirname] never shortens a leading [//] to [/], so every
    ancestor of a path that begins with two slashes begins with two slashes;
    against a mount table none of whose keys does, and in particular one that
    holds ["/"], [free_bytes] raises the mount-resolution error for such a
    path. *)
Theorem free_bytes_double_slash (path : string) (ansible_mounts : dict mount_record) :
  double_slash path ->
  (forall key, dict_mem key ansible_mounts = true -> ~ double_slash key) ->
  (forall k : nat, double_slash (Nat.iter k dirname path))
  /\ free_bytes path ansible_mounts =
       Raise (OpenShiftCheckException (unable_msg path (known_mounts ansible_mounts))).
Proof.
  intros Hpath Hkeys.
  assert (Hnone : forall k, dict_mem (Nat.iter k dirname path) ansible_mounts = false).
  { intros k. destruct (dict_mem (Nat.iter k dirname path) ansible_mounts) eqn:E;
      [|reflexivity].
    exfalso. exact (Hkeys _ E (iter_dirname_double_slash k path Hpath)). }
  split; [intros k; now apply iter_dirname_double_slash|].
  rewrite (free_bytes_at ansible_mounts path 32).
  - now rewrite (dict_mem_false _ _ (Hnone 32%nat)).
  - apply Nat.le_refl.
  - intros j _. apply Hnone.
  - intros Hlt. exfalso. lia.
Qed.

Lemma free_bytes_double_slash_witness :
  free_bytes "//tmp" (mounts_by_path sample_mounts) =
    Raise (OpenShiftCheckException
             (unable_msg "//tmp" (known_mounts (mounts_by_path sample_mounts)))).
Proof.
  apply (free_bytes_double_slash "//tmp" (mounts_by_path sample_mounts)).
  - now exists "tmp".
  - intros key Hmem (r & ->).
    change (mounts_by_path sample_mounts)
      with [("/", mount_int "/" 50000000000); ("/var", mount_int "/var" 8000000000)]
      in Hmem.
    unfold dict_mem in Hmem. cbn [dict_get] in Hmem.
    destruct (String.eqb_spec "/" (String "/"%char (String "/"%char r)));
      [discriminate|].
    destruct (String.eqb_spec "/var" (String "/"%char (String "/"%char r)));
      discriminate.
Defined.

(** ** The diagnostic does not depend on the order of the mounts *)

Lemma strongly_sorted_unique (l1 : list string) : forall l2 : list string,
  StronglySorted (fun a b => String.leb a b = true) l1 ->
  StronglySorted (fun a b => String.leb a b = true) l2 ->
  Permutation l1 l2 -> l1 = l2.
Proof.
  induction l1 as [|x l1 IH]; intros l2 H1 H2 HP.
  - apply Permutation_nil in HP. now subst.
  - destruct l2 as [|y l2];
      [apply Permutation_sym, Permutation_nil in HP; discriminate|].
    inversion H1 as [|? ? Hs1 Hx]; subst. inversion H2 as [|? ? Hs2 Hy]; subst.
    assert (Exy : x = y).
    { assert (Hxin : In x (y :: l2)) by (apply (Permutation_in x HP); now left).
      assert (Hyin : In y (x :: l1))
        by (apply (Permutation_in y (Permutation_sym HP)); now left).
      destruct Hxin as [E | Hxin]; [now symmetry|].
      destruct Hyin as [E | Hyin]; [exact E|].
      rewrite Forall_forall in Hx, Hy.
      apply String.leb_antisym; [now apply Hx | now apply Hy]. }
    subst y. f_equal. apply IH; try assumption.
    now apply Permutation_cons_inv with x.
Qed.

(** X12. Two mount tables with the same mount points, in whatever order,
    give the same list of known mount points, so the message of the
    mount-resolution error does not depend on the order in which the mounts
    were reported. *)
Theorem known_mounts_order_independent (mounts1 mounts2 : dict mount_record) :
  Permutation (dict_keys mounts1) (dict_keys mounts2) ->
  known_mounts mounts1 = known_mounts mounts2
  /\ forall path, unable_msg path (known_mounts mounts1) =
                  unable_msg path (known_mounts mounts2).
Proof.
  intros HP.
  assert (Hsorted : sorted (dict_keys mounts1) = sorted (dict_keys mounts2)).
  { destruct (sorted_spec (dict_keys mounts1)) as [HP1 HS1].
    destruct (sorted_spec (dict_keys mounts2)) as [HP2 HS2].
    apply strongly_sorted_unique; try assumption.
    eapply Permutation_trans; [apply Permutation_sym, HP1|].
    eapply Permutation_trans; [exact HP | exact HP2]. }
  assert (Hknown : known_mounts mounts1 = known_mounts mounts2).
  { unfold known_mounts. now rewrite Hsorted. }
  split; [exact Hknown|]. intros path. now rewrite Hknown.
Qed.

Lemma known_mounts_order_independent_witness :
  known_mounts (mounts_by_path [mount_int "/var" 1; mount_int "/" 2; mount_int "/boot" 3]) =
  known_mounts (mounts_by_path [mount_int "/boot" 3; mount_int "/var" 1; mount_int "/" 2]).
Proof.
  apply (proj1 (known_mounts_order_independent
                  (mounts_by_path [mount_int "/var" 1; mount_int "/" 2;
                                   mount_int "/boot" 3])
                  (mounts_by_path [mount_int "/boot" 3; mount_int "/var" 1;
                                   mount_int "/" 2])
                  (Permutation_sym
                     (Permutation_cons_append ["/var"; "/"] "/boot")))).
Defined.
